(** * STRIDE threat-modelling tool: response parsing, image loading and
      report rendering of [stride_threat_model.py]

    Python [str] values are modelled as [string]s holding the UTF-8 encoding
    of the text, so the literals of the source appear verbatim.  All
    characters the program searches for (the brace characters, the backtick,
    the line feed, the dot and the slash) are ASCII, and UTF-8 never reuses an
    ASCII byte inside a longer sequence; searching and slicing by byte
    therefore yields the same substrings as Python's code-point operations. *)

From Stdlib Require Import String Ascii List ZArith Lia Bool DecimalString.
From Stdlib Require Strings.Byte.
From stdpp Require Import gmap strings list fin_maps.

Local Open Scope string_scope.
Local Open Scope list_scope.

(** Let [simpl] compute the append of a string that starts with a literal. *)
#[local] Arguments String.append !s1 s2 : simpl nomatch.

(** ** Outcome of a Python call: a value or a raised exception *)

Inductive exn : Type :=
| FileNotFoundError (msg : string)
| IndexError
| JSONDecodeError
| ValueError (msg : string)
| KeyError (key : string).

Inductive result (A : Type) : Type :=
| Return (a : A)
| Raise (e : exn).
Arguments Return {A} a.
Arguments Raise {A} e.

(** ** Python string primitives *)

Module Str.

Definition LF : ascii := "010"%char.
Definition newline : string := String LF EmptyString.

(** The needle of [find] and [rfind] is a one-character literal in every
    call of the source. *)
Fixpoint find_char (c : ascii) (s : string) : option nat :=
  match s with
  | EmptyString => None
  | String a s' =>
      if Ascii.eqb a c then Some 0
      else match find_char c s' with
           | Some i => Some (S i)
           | None => None
           end
  end.

Fixpoint rfind_char (c : ascii) (s : string) : option nat :=
  match s with
  | EmptyString => None
  | String a s' =>
      match rfind_char c s' with
      | Some i => Some (S i)
      | None => if Ascii.eqb a c then Some 0 else None
      end
  end.

(** [s.find(c)] and [s.rfind(c)]: the index, or [-1]. *)
Definition find (c : ascii) (s : string) : Z :=
  match find_char c s with Some i => Z.of_nat i | None => (-1)%Z end.

Definition rfind (c : ascii) (s : string) : Z :=
  match rfind_char c s with Some i => Z.of_nat i | None => (-1)%Z end.

(** [s[start:stop]] for [0 <= start]; Python clamps [stop] to the length
    and yields the empty string when [stop <= start]. *)
Definition slice (s : string) (start stop : Z) : string :=
  substring (Z.to_nat start) (Z.to_nat (stop - start)) s.

Definition startswith (s p : string) : bool := String.prefix p s.

Fixpoint rev (s : string) : string :=
  match s with
  | EmptyString => EmptyString
  | String a s' => rev s' ++ String a EmptyString
  end.

Definition endswith (s p : string) : bool := String.prefix (rev p) (rev s).

(** [s[:-3]] *)
Definition drop_last3 (s : string) : string :=
  substring 0 (String.length s - 3) s.

(** [s.split("\n", 1)]: one element when there is no line feed, else the
    text before the first one and the text after it. *)
Fixpoint split_first_line (s : string) : string * option string :=
  match s with
  | EmptyString => (EmptyString, None)
  | String a s' =>
      if Ascii.eqb a LF then (EmptyString, Some s')
      else let '(h, t) := split_first_line s' in (String a h, t)
  end.

(** *** Whitespace, as [str.strip()] sees it

    Python strips the code points U+0009..U+000D, U+001C..U+0020, U+0085,
    U+00A0, U+1680, U+2000..U+200A, U+2028, U+2029, U+202F, U+205F and
    U+3000.  Below they are recognised by their UTF-8 encodings of one, two
    or three bytes. *)

Definition space1 (a : ascii) : bool :=
  let n := N_of_ascii a in
  ((9 <=? n) && (n <=? 13) || (28 <=? n) && (n <=? 32))%N.

Definition space2 (a b : ascii) : bool :=
  let m := N_of_ascii a in
  let n := N_of_ascii b in
  ((m =? 194) && ((n =? 133) || (n =? 160)))%N.

Definition space3 (a b c : ascii) : bool :=
  let l := N_of_ascii a in
  let m := N_of_ascii b in
  let n := N_of_ascii c in
  ((l =? 225) && (m =? 154) && (n =? 128)
   || (l =? 226) && (m =? 128)
      && ((128 <=? n) && (n <=? 138) || (n =? 168) || (n =? 169) || (n =? 175))
   || (l =? 226) && (m =? 129) && (n =? 159)
   || (l =? 227) && (m =? 128) && (n =? 128))%N.

Fixpoint lstrip (s : string) : string :=
  match s with
  | EmptyString => EmptyString
  | String a s1 =>
      if space1 a then lstrip s1
      else match s1 with
           | EmptyString => s
           | String b s2 =>
               if space2 a b then lstrip s2
               else match s2 with
                    | EmptyString => s
                    | String c s3 => if space3 a b c then lstrip s3 else s
                    end
           end
  end.

(** The same scan over the reversed text, where the bytes of an encoded
    character arrive last byte first. *)
Fixpoint lstrip_rev (s : string) : string :=
  match s with
  | EmptyString => EmptyString
  | String a s1 =>
      if space1 a then lstrip_rev s1
      else match s1 with
           | EmptyString => s
           | String b s2 =>
               if space2 b a then lstrip_rev s2
               else match s2 with
                    | EmptyString => s
                    | String c s3 => if space3 c b a then lstrip_rev s3 else s
                    end
           end
  end.

Definition rstrip (s : string) : string := rev (lstrip_rev (rev s)).

Definition strip (s : string) : string := rstrip (lstrip s).

(** ["sep".join(parts)] *)
Fixpoint join (sep : string) (parts : list string) : string :=
  match parts with
  | [] => EmptyString
  | [p] => p
  | p :: rest => p ++ sep ++ join sep rest
  end.

(** [str(n)] for a non-negative [int]. *)
Definition of_nat (n : nat) : string := NilZero.string_of_uint (Nat.to_uint n).

End Str.

(** [c] is one of the characters of [s]. *)
Definition occurs (c : ascii) (s : string) : Prop :=
  exists pre post, s = (pre ++ String c post)%string.

(** ** Data model

    The two documents are the dictionaries decoded from the model's replies.
    Every field is read through [dict.get] with a default, except one read of
    ["name"]; a field is therefore an [option], [None] standing for an absent
    key.  A field that is present carries the type the prompts ask for. *)

Record connection : Type := {
  conn_target : option string;
  conn_data_flow : option string
}.

Record component : Type := {
  comp_name : option string;
  comp_type : option string;
  comp_provider : option string;
  comp_description : option string;
  comp_connections : option (list connection)
}.

Record arch_doc : Type := {
  components : option (list component);
  architecture_summary : option string
}.

Record threat : Type := {
  t_category : option string;
  t_threat : option string;
  t_severity : option string;
  t_vulnerabilities : option (list string);
  t_countermeasures : option (list string)
}.

Record entry : Type := {
  component_name : option string;
  component_type : option string;
  threats : option (list threat)
}.

Record threat_report : Type := {
  stride_analysis : option (list entry);
  executive_summary : option string;
  overall_risk_level : option string
}.

(** [d.get(key, dflt)] *)
Definition get {A : Type} (field : option A) (dflt : A) : A :=
  match field with Some v => v | None => dflt end.

(** ** Program state and the monad of statements

    The state holds the objects a call can reach: the two dictionaries owned
    by the caller, the mutable locals of [generate_report], the text files
    written so far and the standard output. *)

Record state : Type := {
  components_data : arch_doc;
  stride_data : threat_report;
  lines : list string;
  severity_counts : gmap string nat;
  category_counts : gmap string nat;
  files : gmap string string;
  stdout : list string
}.

Definition set_lines (f : list string -> list string) (s : state) : state :=
  {| components_data := components_data s; stride_data := stride_data s;
     lines := f (lines s);
     severity_counts := severity_counts s; category_counts := category_counts s;
     files := files s; stdout := stdout s |}.

Definition set_severity_counts (f : gmap string nat -> gmap string nat) (s : state) : state :=
  {| components_data := components_data s; stride_data := stride_data s;
     lines := lines s;
     severity_counts := f (severity_counts s); category_counts := category_counts s;
     files := files s; stdout := stdout s |}.

Definition set_category_counts (f : gmap string nat -> gmap string nat) (s : state) : state :=
  {| components_data := components_data s; stride_data := stride_data s;
     lines := lines s;
     severity_counts := severity_counts s; category_counts := f (category_counts s);
     files := files s; stdout := stdout s |}.

Definition set_files (f : gmap string string -> gmap string string) (s : state) : state :=
  {| components_data := components_data s; stride_data := stride_data s;
     lines := lines s;
     severity_counts := severity_counts s; category_counts := category_counts s;
     files := f (files s); stdout := stdout s |}.

Definition set_stdout (f : list string -> list string) (s : state) : state :=
  {| components_data := components_data s; stride_data := stride_data s;
     lines := lines s;
     severity_counts := severity_counts s; category_counts := category_counts s;
     files := files s; stdout := f (stdout s) |}.

Definition M (A : Type) : Type := state -> result A * state.

#[global] Instance M_ret : MRet M := fun A (a : A) s => (Return a, s).

#[global] Instance M_bind : MBind M := fun A B (f : A -> M B) (m : M A) s =>
  match m s with
  | (Return a, s') => f a s'
  | (Raise e, s') => (Raise e, s')
  end.

Definition raise {A : Type} (e : exn) : M A := fun s => (Raise e, s).
Definition gets {A : Type} (f : state -> A) : M A := fun s => (Return (f s), s).
Definition modify (f : state -> state) : M unit := fun s => (Return tt, f s).

(** [for x in l: body] *)
Fixpoint for_each {A : Type} (l : list A) (body : A -> M unit) : M unit :=
  match l with
  | [] => mret tt
  | x :: l' => body x;; for_each l' body
  end.

(** [enumerate(l, start)] *)
Fixpoint enumerate {A : Type} (start : nat) (l : list A) : list (nat * A) :=
  match l with
  | [] => []
  | x :: l' => (start, x) :: enumerate (S start) l'
  end.

Definition print (text : string) : M unit := modify (set_stdout (fun o => o ++ [text])).

(** ** Image helpers *)

Module Base64.

Definition alphabet : string :=
  "ABCDEFGHIJKLMNOPQRSTUVWXYZabcdefghijklmnopqrstuvwxyz0123456789+/".

Definition digit (n : N) : ascii :=
  match String.get (N.to_nat n) alphabet with Some c => c | None => "="%char end.

Definition quad (a b c : N) : string :=
  String (digit (N.shiftr a 2))
    (String (digit (N.lor (N.shiftl (N.land a 3) 4) (N.shiftr b 4)))
       (String (digit (N.lor (N.shiftl (N.land b 15) 2) (N.shiftr c 6)))
          (String (digit (N.land c 63)) EmptyString))).

(** [base64.standard_b64encode(data).decode("utf-8")] *)
Fixpoint standard_b64encode (data : list Byte.byte) : string :=
  match data with
  | [] => EmptyString
  | [a] => substring 0 2 (quad (Byte.to_N a) 0 0) ++ "=="
  | [a; b] => substring 0 3 (quad (Byte.to_N a) (Byte.to_N b) 0) ++ "="
  | a :: b :: c :: rest =>
      quad (Byte.to_N a) (Byte.to_N b) (Byte.to_N c) ++ standard_b64encode rest
  end.

End Base64.

Module PurePath.

(** Components of a POSIX path as [pathlib] keeps them: empty components
    and ["."] are dropped. *)
Fixpoint split_slash (cur : string) (s : string) : list string :=
  match s with
  | EmptyString => [Str.rev cur]
  | String a s' =>
      if Ascii.eqb a "/" then Str.rev cur :: split_slash EmptyString s'
      else split_slash (String a cur) s'
  end.

Definition parts (p : string) : list string :=
  List.filter (fun c => negb (String.eqb c "" || String.eqb c ".")) (split_slash EmptyString p).

(** [path.name] *)
Definition name (p : string) : string := List.last (parts p) EmptyString.

(** [path.suffix]: the text from the last dot of the name on, when that dot
    is neither the first nor the last character. *)
Definition suffix (p : string) : string :=
  let n := name p in
  let i := Str.rfind "." n in
  if ((0 <? i) && (i <? Z.of_nat (String.length n) - 1))%Z
  then Str.slice n i (Z.of_nat (String.length n))
  else EmptyString.

End PurePath.

(** [ext.lower()].  Only the letters A to Z are mapped.  Python lowercases
    other code points as well, but never into a text made of the characters
    of a key of [mime_map] alone (U+212A becomes k, U+0130 becomes i followed
    by a combining dot), so the lookup below finds the same entry. *)
Definition lower_ascii (a : ascii) : ascii :=
  let n := N_of_ascii a in
  if ((65 <=? n) && (n <=? 90))%N then ascii_of_N (n + 32) else a.

Fixpoint lower (s : string) : string :=
  match s with
  | EmptyString => EmptyString
  | String a s' => String (lower_ascii a) (lower s')
  end.

Definition mime_map : gmap string string :=
  <[".png" := "image/png"]>
  (<[".jpg" := "image/jpeg"]>
  (<[".jpeg" := "image/jpeg"]>
  (<[".gif" := "image/gif"]>
  (<[".webp" := "image/webp"]>
  (<[".bmp" := "image/bmp"]> ∅))))).

(** The file system is a finite map from the paths of readable files to
    their bytes. *)
Definition load_image_as_base64 (fs : gmap string (list Byte.byte)) (image_path : string)
  : result (string * string) :=
  match fs !! image_path with
  | None => Raise (FileNotFoundError ("Image not found: " ++ image_path))
  | Some content =>
      let ext := lower (PurePath.suffix image_path) in
      let mime_type := get (mime_map !! ext) "image/png" in
      let data := Base64.standard_b64encode content in
      Return (data, mime_type)
  end.

(** ** The two model calls

    What lies outside the program is taken as given: the JSON codec
    ([json_loads] answers [None] where [json.loads] raises
    [JSONDecodeError]), the model behind [llm.invoke], and the fixed wording
    of the two prompts, which no property below depends on. *)

Inductive content_part : Type :=
| text_part (text : string)
| image_url_part (url : string).

Inductive HumanMessage : Type :=
| HumanMessage_parts (content : list content_part)
| HumanMessage_text (content : string).

Section ModelCalls.

Context {Doc : Type}.
Variable json_loads : string -> option Doc.
Variable json_dumps : list component -> string.
Variable llm_invoke : list HumanMessage -> string.
Variable COMPONENT_EXTRACTION_PROMPT : string.
(** [STRIDE_ANALYSIS_PROMPT] has two replacement fields; the three
    variables are the text before, between and after them. *)
Variables STRIDE_PROMPT_head STRIDE_PROMPT_mid STRIDE_PROMPT_tail : string.

Definition STRIDE_ANALYSIS_PROMPT_format (components_json architecture_summary : string) : string :=
  STRIDE_PROMPT_head ++ components_json ++ STRIDE_PROMPT_mid
    ++ architecture_summary ++ STRIDE_PROMPT_tail.

Definition extract_components (image_b64 mime_type : string) : M Doc :=
  let prompt_text := COMPONENT_EXTRACTION_PROMPT in
  let message :=
    HumanMessage_parts
      [ text_part prompt_text;
        image_url_part ("data:" ++ mime_type ++ ";base64," ++ image_b64) ] in
  print "[LLM] Extracting components from the diagram …";;
  let response := llm_invoke [message] in
  let raw := Str.strip response in
  (* Strip markdown fences if present *)
  raw ← (if Str.startswith raw "```" then
           match snd (Str.split_first_line raw) with
           | None => raise IndexError
           | Some raw =>
               let raw := if Str.endswith raw "```" then Str.drop_last3 raw else raw in
               mret (Str.strip raw)
           end
         else mret raw);
  match json_loads raw with
  | Some doc => mret doc
  | None =>
      print "[WARN] LLM response was not valid JSON. Attempting repair …";;
      (* Try to find JSON object in the response *)
      let start := Str.find "{" raw in
      let end_ := (Str.rfind "}" raw + 1)%Z in
      if negb (start =? -1)%Z && (end_ >? start)%Z then
        match json_loads (Str.slice raw start end_) with
        | Some doc => mret doc
        | None => raise JSONDecodeError
        end
      else
        raise (ValueError ("Could not parse LLM response as JSON:" ++ Str.newline ++ raw))
  end.

Definition analyze_stride : M Doc :=
  components_json ← gets (fun s => json_dumps (get (components (components_data s)) []));
  architecture_summary ← gets (fun s => get (architecture_summary (components_data s)) "N/A");
  let prompt := STRIDE_ANALYSIS_PROMPT_format components_json architecture_summary in
  let message := HumanMessage_text prompt in
  print "[LLM] Performing STRIDE threat analysis …";;
  let response := llm_invoke [message] in
  let raw := Str.strip response in
  (* Strip markdown fences if present *)
  raw ← (if Str.startswith raw "```" then
           match snd (Str.split_first_line raw) with
           | None => raise IndexError
           | Some raw =>
               let raw := if Str.endswith raw "```" then Str.drop_last3 raw else raw in
               mret (Str.strip raw)
           end
         else mret raw);
  match json_loads raw with
  | Some doc => mret doc
  | None =>
      let start := Str.find "{" raw in
      let end_ := (Str.rfind "}" raw + 1)%Z in
      if negb (start =? -1)%Z && (end_ >? start)%Z then
        match json_loads (Str.slice raw start end_) with
        | Some doc => mret doc
        | None => raise JSONDecodeError
        end
      else
        raise (ValueError ("Could not parse STRIDE response as JSON:" ++ Str.newline ++ raw))
  end.

(** *** The shared reply handling, step by step *)

(** Lines 121-126 and 210-215: the text handed to the parser. *)
Definition strip_fences (response : string) : result string :=
  let raw := Str.strip response in
  if Str.startswith raw "```" then
    match snd (Str.split_first_line raw) with
    | None => Raise IndexError
    | Some rest =>
        Return (Str.strip (if Str.endswith rest "```" then Str.drop_last3 rest else rest))
    end
  else Return raw.

(** Lines 128-137 and 217-224: strict parse, then the brace repair. *)
Definition parse_step (complaint : string) (raw : string) : result Doc :=
  match json_loads raw with
  | Some doc => Return doc
  | None =>
      let start := Str.find "{" raw in
      let end_ := (Str.rfind "}" raw + 1)%Z in
      if negb (start =? -1)%Z && (end_ >? start)%Z then
        match json_loads (Str.slice raw start end_) with
        | Some doc => Return doc
        | None => Raise JSONDecodeError
        end
      else Raise (ValueError (complaint ++ Str.newline ++ raw))
  end.

Definition handle_reply (complaint : string) (response : string) : result Doc :=
  match strip_fences response with
  | Return raw => parse_step complaint raw
  | Raise e => Raise e
  end.

(** The message [extract_components] sends. *)
Definition extraction_message (image_b64 mime_type : string) : HumanMessage :=
  HumanMessage_parts
    [ text_part COMPONENT_EXTRACTION_PROMPT;
      image_url_part ("data:" ++ mime_type ++ ";base64," ++ image_b64) ].

(** The message [analyze_stride] sends. *)
Definition analysis_message (cd : arch_doc) : HumanMessage :=
  HumanMessage_text
    (STRIDE_ANALYSIS_PROMPT_format
       (json_dumps (get (components cd) []))
       (get (architecture_summary cd) "N/A")).

End ModelCalls.

(** A codec that accepts the empty object and nothing else, and a state
    with nothing in it; they serve to run statements on concrete input. *)
Definition loads_empty_object (text : string) : option nat :=
  if String.eqb text "{}" then Some 0 else None.

Definition empty_state : state :=
  {| components_data := {| components := None; architecture_summary := None |};
     stride_data := {| stride_analysis := None; executive_summary := None;
                       overall_risk_level := None |};
     lines := []; severity_counts := ∅; category_counts := ∅;
     files := ∅; stdout := [] |}.

(** The state in which [generate_report] is called on two given documents. *)
Definition state_of (cd : arch_doc) (sd : threat_report) : state :=
  {| components_data := cd; stride_data := sd;
     lines := []; severity_counts := ∅; category_counts := ∅;
     files := ∅; stdout := [] |}.

(** A payload inside a fenced code block: the opening fence with its info
    string on a line of its own, the payload, the closing fence. *)
Definition fenced (info payload : string) : string :=
  "```" ++ info ++ Str.newline ++ payload ++ "```".

(** ** Report generation *)

Definition SEVERITY_EMOJI : gmap string string :=
  <["Critical" := "🔴"]>
  (<["High" := "🟠"]>
  (<["Medium" := "🟡"]>
  (<["Low" := "🟢"]> ∅))).

(** [lines.append(line)] *)
Definition emit (line : string) : M unit := modify (set_lines (fun l => l ++ [line])).

(* -- Header -- *)
Definition render_header (now image_path overall_risk : string) : M unit :=
  emit "# 🛡️ Relatório de Modelagem de Ameaças STRIDE";;
  emit "";;
  emit ("**Gerado em:** " ++ now ++ "  ");;
  emit ("**Diagrama de Origem:** `" ++ image_path ++ "`  ");;
  emit ("**Nível de Risco Geral:** " ++ get (SEVERITY_EMOJI !! overall_risk) "⚪"
          ++ " **" ++ overall_risk ++ "**");;
  emit "";;
  emit "---";;
  emit "".

(* -- Executive Summary -- *)
Definition render_executive_summary (exec_summary : string) : M unit :=
  emit "## 📋 Resumo Executivo";;
  emit "";;
  emit exec_summary;;
  emit "".

(* -- Architecture Overview -- *)
Definition render_architecture_overview (arch_summary : string) : M unit :=
  emit "## 🏗️ Visão Geral da Arquitetura";;
  emit "";;
  emit arch_summary;;
  emit "".

(* -- Identified Components -- *)
Definition render_components (components : list component) : M unit :=
  emit "## 🧩 Componentes Identificados";;
  emit "";;
  emit "| # | Componente | Tipo | Provedor | Descrição |";;
  emit "|---|-----------|------|----------|-----------|";;
  for_each (enumerate 1 components) (fun '(i, comp) =>
    emit ("| " ++ Str.of_nat i ++ " | **" ++ get (comp_name comp) "N/A" ++ "** | "
            ++ get (comp_type comp) "N/A" ++ " "
            ++ "| " ++ get (comp_provider comp) "N/A" ++ " | "
            ++ get (comp_description comp) "N/A" ++ " |"));;
  emit "".

(* -- Data Flow -- *)
Definition render_data_flow (components : list component) : M unit :=
  emit "## 🔄 Fluxo de Dados";;
  emit "";;
  for_each components (fun comp =>
    let connections := get (comp_connections comp) [] in
    match connections with
    | [] => mret tt
    | _ :: _ =>
        name ← match comp_name comp with
               | Some name => mret name
               | None => raise (KeyError "name")
               end;
        emit ("### " ++ name);;
        for_each connections (fun conn =>
          let target := get (conn_target conn) "?" in
          let flow := get (conn_data_flow conn) "?" in
          emit ("- → **" ++ target ++ "**: " ++ flow));;
        emit ""
    end).

(* -- STRIDE Analysis -- *)
Definition render_stride_analysis (stride_analysis : list entry) : M unit :=
  emit "---";;
  emit "";;
  emit "## 🔍 Análise de Ameaças STRIDE";;
  emit "";;
  for_each stride_analysis (fun entry =>
    let comp_name := get (component_name entry) "Desconhecido" in
    let comp_type := get (component_type entry) "Desconhecido" in
    let threats := get (threats entry) [] in
    emit ("### 🔹 " ++ comp_name ++ " (" ++ comp_type ++ ")");;
    emit "";;
    match threats with
    | [] =>
        emit "_Nenhuma ameaça significativa identificada._";;
        emit ""
    | _ :: _ =>
        emit "| Categoria | Ameaça | Severidade | Vulnerabilidades | Contramedidas |";;
        emit "|-----------|--------|-----------|-------------------|----|";;
        for_each threats (fun t =>
          let cat := get (t_category t) "N/A" in
          let threat_desc := get (t_threat t) "N/A" in
          let sev := get (t_severity t) "N/A" in
          let emoji := get (SEVERITY_EMOJI !! sev) "⚪" in
          let vulns := Str.join "; " (get (t_vulnerabilities t) []) in
          let counters := Str.join "; " (get (t_countermeasures t) []) in
          emit ("| **" ++ cat ++ "** | " ++ threat_desc ++ " | " ++ emoji ++ " " ++ sev
                  ++ " | " ++ vulns ++ " | " ++ counters ++ " |"));;
        emit ""
    end).

(* -- Risk Matrix -- *)
Definition render_risk_matrix (stride_analysis : list entry) : M unit :=
  emit "---";;
  emit "";;
  emit "## 📊 Matriz de Resumo de Risco";;
  emit "";;
  (* Count threats by severity *)
  modify (set_severity_counts (fun _ =>
    <["Crítica" := 0]> (<["Alta" := 0]> (<["Média" := 0]> (<["Baixa" := 0]>
    (<["Critical" := 0]> (<["High" := 0]> (<["Medium" := 0]> (<["Low" := 0]> ∅)))))))));;
  modify (set_category_counts (fun _ => ∅));;
  for_each stride_analysis (fun entry =>
    for_each (get (threats entry) []) (fun t =>
      let sev := get (t_severity t) "Baixa" in
      n ← gets (fun s => get (severity_counts s !! sev) 0);
      modify (set_severity_counts (insert sev (n + 1)));;
      let cat := get (t_category t) "Outro" in
      n ← gets (fun s => get (category_counts s !! cat) 0);
      modify (set_category_counts (insert cat (n + 1)))));;
  emit "### Por Severidade";;
  emit "";;
  emit "| Severidade | Quantidade |";;
  emit "|----------|-------|";;
  for_each ["Crítica"; "Alta"; "Média"; "Baixa"; "Critical"; "High"; "Medium"; "Low"] (fun sev =>
    let emoji := get (SEVERITY_EMOJI !! sev) "⚪" in
    if negb (String.eqb emoji "⚪") then
      n ← gets (fun s => get (severity_counts s !! sev) 0);
      emit ("| " ++ emoji ++ " " ++ sev ++ " | " ++ Str.of_nat n ++ " |")
    else mret tt);;
  emit "";;
  emit "### Por Categoria STRIDE";;
  emit "";;
  emit "| Categoria | Quantidade |";;
  emit "|----------|-------|";;
  for_each [ "Spoofing"; "Tampering"; "Repudiation";
             "Information Disclosure"; "Denial of Service"; "Elevation of Privilege" ] (fun cat =>
    n ← gets (fun s => get (category_counts s !! cat) 0);
    emit ("| " ++ cat ++ " | " ++ Str.of_nat n ++ " |"));;
  emit "".

(* -- Footer -- *)
Definition render_footer : M unit :=
  emit "---";;
  emit "";;
  emit ("*Este relatório foi gerado automaticamente usando análise de arquitetura com IA "
          ++ "e modelagem de ameaças STRIDE. Os achados devem ser revisados e validados por um "
          ++ "profissional de segurança qualificado.*");;
  emit "".

(** [now] is the text [datetime.now().strftime(...)] yields when the call
    is made.  Opening and writing [output_path] is taken to succeed: the file
    store maps the path to the report afterwards. *)
Definition generate_report (now : string) (image_path output_path : string) : M string :=
  components ← gets (fun s => get (components (components_data s)) []);
  arch_summary ← gets (fun s => get (architecture_summary (components_data s)) "N/A");
  stride_analysis ← gets (fun s => get (stride_analysis (stride_data s)) []);
  exec_summary ← gets (fun s => get (executive_summary (stride_data s)) "N/A");
  overall_risk ← gets (fun s => get (overall_risk_level (stride_data s)) "N/A");
  modify (set_lines (fun _ => []));;
  render_header now image_path overall_risk;;
  render_executive_summary exec_summary;;
  render_architecture_overview arch_summary;;
  render_components components;;
  render_data_flow components;;
  render_stride_analysis stride_analysis;;
  render_risk_matrix stride_analysis;;
  render_footer;;
  report ← gets (fun s => Str.join Str.newline (lines s));
  modify (set_files (insert output_path report));;
  mret report.

(** ** The rendered text, block by block

    The lines each block of [generate_report] appends, as plain functions of
    the two documents.  The lemmas of the second part show that the program
    produces exactly these. *)

Definition header_lines (now image_path overall_risk : string) : list string :=
  [ "# 🛡️ Relatório de Modelagem de Ameaças STRIDE";
    "";
    ("**Gerado em:** " ++ now ++ "  ")%string;
    ("**Diagrama de Origem:** `" ++ image_path ++ "`  ")%string;
    ("**Nível de Risco Geral:** " ++ get (SEVERITY_EMOJI !! overall_risk) "⚪"
      ++ " **" ++ overall_risk ++ "**")%string;
    "";
    "---";
    "" ].

Definition executive_summary_lines (exec_summary : string) : list string :=
  [ "## 📋 Resumo Executivo"; ""; exec_summary; "" ].

Definition architecture_overview_lines (arch_summary : string) : list string :=
  [ "## 🏗️ Visão Geral da Arquitetura"; ""; arch_summary; "" ].

Definition component_row (numbered : nat * component) : string :=
  let '(i, comp) := numbered in
  "| " ++ Str.of_nat i ++ " | **" ++ get (comp_name comp) "N/A" ++ "** | "
    ++ get (comp_type comp) "N/A" ++ " "
    ++ "| " ++ get (comp_provider comp) "N/A" ++ " | "
    ++ get (comp_description comp) "N/A" ++ " |".

Definition components_lines (components : list component) : list string :=
  [ "## 🧩 Componentes Identificados";
    "";
    "| # | Componente | Tipo | Provedor | Descrição |";
    "|---|-----------|------|----------|-----------|" ]
  ++ map component_row (enumerate 1 components) ++ [ "" ].

Definition connection_line (conn : connection) : string :=
  "- → **" ++ get (conn_target conn) "?" ++ "**: " ++ get (conn_data_flow conn) "?".

(** The data-flow section of one component: nothing without connections,
    [KeyError] with connections and no name. *)
Definition data_flow_section (comp : component) : result (list string) :=
  match get (comp_connections comp) [] with
  | [] => Return []
  | conn :: conns =>
      match comp_name comp with
      | Some name =>
          Return (("### " ++ name)%string :: map connection_line (conn :: conns) ++ [""])
      | None => Raise (KeyError "name")
      end
  end.

Fixpoint data_flow_sections (components : list component) : result (list string) :=
  match components with
  | [] => Return []
  | comp :: rest =>
      match data_flow_section comp with
      | Raise e => Raise e
      | Return here =>
          match data_flow_sections rest with
          | Raise e => Raise e
          | Return after => Return (here ++ after)
          end
      end
  end.

Definition threat_row (t : threat) : string :=
  let sev := get (t_severity t) "N/A" in
  "| **" ++ get (t_category t) "N/A" ++ "** | " ++ get (t_threat t) "N/A" ++ " | "
    ++ get (SEVERITY_EMOJI !! sev) "⚪" ++ " " ++ sev
    ++ " | " ++ Str.join "; " (get (t_vulnerabilities t) [])
    ++ " | " ++ Str.join "; " (get (t_countermeasures t) []) ++ " |".

Definition stride_section (e : entry) : list string :=
  [ ("### 🔹 " ++ get (component_name e) "Desconhecido"
      ++ " (" ++ get (component_type e) "Desconhecido" ++ ")")%string;
    "" ]
  ++ match get (threats e) [] with
     | [] => [ "_Nenhuma ameaça significativa identificada._"; "" ]
     | t :: ts =>
         [ "| Categoria | Ameaça | Severidade | Vulnerabilidades | Contramedidas |";
           "|-----------|--------|-----------|-------------------|----|" ]
         ++ map threat_row (t :: ts) ++ [ "" ]
     end.

Definition stride_lines (stride_analysis : list entry) : list string :=
  [ "---"; ""; "## 🔍 Análise de Ameaças STRIDE"; "" ]
  ++ concat (map stride_section stride_analysis).

(** Every threat of the report, in the order the counting loop visits them. *)
Definition all_threats (stride_analysis : list entry) : list threat :=
  concat (map (fun e => get (threats e) []) stride_analysis).

(** The keys under which a threat is counted. *)
Definition severity_key (t : threat) : string := get (t_severity t) "Baixa".
Definition category_key (t : threat) : string := get (t_category t) "Outro".

(** How many of [keys] are exactly [label]. *)
Definition occurrences (label : string) (keys : list string) : nat :=
  List.length (List.filter (String.eqb label) keys).

Definition severity_row (emoji label : string) (n : nat) : string :=
  "| " ++ emoji ++ " " ++ label ++ " | " ++ Str.of_nat n ++ " |".

Definition category_row (label : string) (n : nat) : string :=
  "| " ++ label ++ " | " ++ Str.of_nat n ++ " |".

Definition STRIDE_CATEGORIES : list string :=
  [ "Spoofing"; "Tampering"; "Repudiation";
    "Information Disclosure"; "Denial of Service"; "Elevation of Privilege" ].

Definition severity_table (stride_analysis : list entry) : list string :=
  let keys := map severity_key (all_threats stride_analysis) in
  [ "### Por Severidade";
    "";
    "| Severidade | Quantidade |";
    "|----------|-------|";
    severity_row "🔴" "Critical" (occurrences "Critical" keys);
    severity_row "🟠" "High" (occurrences "High" keys);
    severity_row "🟡" "Medium" (occurrences "Medium" keys);
    severity_row "🟢" "Low" (occurrences "Low" keys);
    "" ].

Definition category_table (stride_analysis : list entry) : list string :=
  let keys := map category_key (all_threats stride_analysis) in
  [ "### Por Categoria STRIDE";
    "";
    "| Categoria | Quantidade |";
    "|----------|-------|" ]
  ++ map (fun label => category_row label (occurrences label keys)) STRIDE_CATEGORIES
  ++ [ "" ].

Definition risk_matrix_lines (stride_analysis : list entry) : list string :=
  [ "---"; ""; "## 📊 Matriz de Resumo de Risco"; "" ]
  ++ severity_table stride_analysis ++ category_table stride_analysis.

Definition footer_lines : list string :=
  [ "---";
    "";
    ("*Este relatório foi gerado automaticamente usando análise de arquitetura com IA "
      ++ "e modelagem de ameaças STRIDE. Os achados devem ser revisados e validados por um "
      ++ "profissional de segurança qualificado.*")%string;
    "" ].

(** Everything the report holds before the data-flow listing. *)
Definition front_lines (now image_path : string) (cd : arch_doc) (sd : threat_report)
  : list string :=
  header_lines now image_path (get (overall_risk_level sd) "N/A")
  ++ executive_summary_lines (get (executive_summary sd) "N/A")
  ++ architecture_overview_lines (get (architecture_summary cd) "N/A")
  ++ components_lines (get (components cd) [])
  ++ [ "## 🔄 Fluxo de Dados"; "" ].

(** Everything after the data-flow listing. *)
Definition back_lines (sd : threat_report) : list string :=
  stride_lines (get (stride_analysis sd) [])
  ++ risk_matrix_lines (get (stride_analysis sd) [])
  ++ footer_lines.

Definition report_lines (now image_path : string) (cd : arch_doc) (sd : threat_report)
  : result (list string) :=
  match data_flow_sections (get (components cd) []) with
  | Raise e => Raise e
  | Return flow => Return (front_lines now image_path cd sd ++ flow ++ back_lines sd)
  end.

(** A threat whose category is one of the six STRIDE labels. *)
Definition recognised (t : threat) : bool :=
  match t_category t with
  | Some cat => existsb (String.eqb cat) STRIDE_CATEGORIES
  | None => false
  end.

(** How many of [ts] carry exactly the category [label]. *)
Definition count_category (label : string) (ts : list threat) : nat :=
  List.length (List.filter (fun t => bool_decide (t_category t = Some label)) ts).

(** How many of [ts] carry exactly the severity [label]. *)
Definition count_severity (label : string) (ts : list threat) : nat :=
  List.length (List.filter (fun t => bool_decide (t_severity t = Some label)) ts).

(** Following the spec's wording, not the source: the severity table with the
    two vocabularies merged, each row counting the threats that carry its
    English label or the Portuguese label that corresponds to it. *)
Definition merged_severity_table (stride_analysis : list entry) : list string :=
  let keys := map severity_key (all_threats stride_analysis) in
  [ "### Por Severidade";
    "";
    "| Severidade | Quantidade |";
    "|----------|-------|";
    severity_row "🔴" "Critical" (occurrences "Critical" keys + occurrences "Crítica" keys);
    severity_row "🟠" "High" (occurrences "High" keys + occurrences "Alta" keys);
    severity_row "🟡" "Medium" (occurrences "Medium" keys + occurrences "Média" keys);
    severity_row "🟢" "Low" (occurrences "Low" keys + occurrences "Baixa" keys);
    "" ].

(** A report with a single threat, of the given severity. *)
Definition single_threat_report (severity : string) : threat_report :=
  {| stride_analysis :=
       Some [ {| component_name := Some "API"; component_type := Some "API Gateway";
                 threats :=
                   Some [ {| t_category := Some "Tampering"; t_threat := Some "Replay";
                             t_severity := Some severity;
                             t_vulnerabilities := Some []; t_countermeasures := Some [] |} ] |} ];
     executive_summary := Some "One finding.";
     overall_risk_level := Some severity |}.

(** Three threats over two entries, with the severities Critical, Critical
    and Low; the second carries a category outside the six, the third none. *)
Definition three_threat_report : threat_report :=
  {| stride_analysis :=
       Some [ {| component_name := None; component_type := None;
                 threats :=
                   Some [ {| t_category := Some "Spoofing"; t_threat := None;
                             t_severity := Some "Critical";
                             t_vulnerabilities := None; t_countermeasures := None |};
                          {| t_category := Some "Phishing"; t_threat := None;
                             t_severity := Some "Critical";
                             t_vulnerabilities := None; t_countermeasures := None |} ] |};
              {| component_name := None; component_type := None;
                 threats :=
                   Some [ {| t_category := None; t_threat := None;
                             t_severity := Some "Low";
                             t_vulnerabilities := None; t_countermeasures := None |} ] |} ];
     executive_summary := None; overall_risk_level := None |}.

(** The end-to-end scenario: a web tier that talks to its database, and one
    Spoofing threat against each. *)
Definition two_tier_web : component :=
  {| comp_name := Some "Web"; comp_type := Some "Servidor Web";
     comp_provider := Some "Genérico"; comp_description := Some "Front end";
     comp_connections :=
       Some [ {| conn_target := Some "DB"; conn_data_flow := Some "SQL" |} ] |}.

Definition two_tier_db : component :=
  {| comp_name := Some "DB"; comp_type := Some "Banco de Dados";
     comp_provider := Some "AWS RDS"; comp_description := Some "Storage";
     comp_connections := Some [] |}.

Definition spoofing (description severity : string) : threat :=
  {| t_category := Some "Spoofing"; t_threat := Some description;
     t_severity := Some severity;
     t_vulnerabilities := Some [ "weak auth" ]; t_countermeasures := Some [ "MFA" ] |}.

Definition two_tier_state : state :=
  state_of
    {| components := Some [ two_tier_web; two_tier_db ];
       architecture_summary := Some "Two tiers." |}
    {| stride_analysis :=
         Some [ {| component_name := Some "Web"; component_type := Some "Servidor Web";
                   threats := Some [ spoofing "Forged session" "Alta" ] |};
                {| component_name := Some "DB"; component_type := Some "Banco de Dados";
                   threats := Some [ spoofing "Stolen credentials" "Crítica" ] |} ];
       executive_summary := Some "Two findings.";
       overall_risk_level := Some "Alta" |}.

(** Documents in which every field that can be absent is absent. *)
Definition blank_connection : connection :=
  {| conn_target := None; conn_data_flow := None |}.

Definition nameless_component (connections : option (list connection)) : component :=
  {| comp_name := None; comp_type := None; comp_provider := None;
     comp_description := None; comp_connections := connections |}.

Definition blank_report : threat_report :=
  {| stride_analysis :=
       Some [ {| component_name := None; component_type := None;
                 threats :=
                   Some [ {| t_category := None; t_threat := None; t_severity := None;
                             t_vulnerabilities := None; t_countermeasures := None |} ] |};
              {| component_name := None; component_type := None; threats := None |} ];
     executive_summary := None; overall_risk_level := None |}.

Definition no_components : arch_doc :=
  {| components := Some []; architecture_summary := Some "Nothing to see." |}.

(** The report text around a given data-flow listing and two given summary
    tables. *)
Definition assemble (now image_path : string) (cd : arch_doc) (sd : threat_report)
                    (flow severity_tbl category_tbl : list string) : string :=
  Str.join Str.newline
    (front_lines now image_path cd sd
     ++ flow
     ++ stride_lines (get (stride_analysis sd) [])
     ++ [ "---"; ""; "## 📊 Matriz de Resumo de Risco"; "" ]
     ++ severity_tbl ++ category_tbl ++ footer_lines).

(** The counters the tallying loop leaves behind. *)
Definition tally (init : gmap string nat) (keys : list string) : gmap string nat :=
  fold_left (fun m key => <[key := get (m !! key) 0 + 1]> m) keys init.

Definition severity_counts_init : gmap string nat :=
  <["Crítica" := 0]> (<["Alta" := 0]> (<["Média" := 0]> (<["Baixa" := 0]>
  (<["Critical" := 0]> (<["High" := 0]> (<["Medium" := 0]> (<["Low" := 0]> ∅))))))).

(** Every component that declares a connection has a name. *)
Definition connected_named (cd : arch_doc) : Prop :=
  Forall (fun comp => get (comp_connections comp) [] <> [] -> comp_name comp <> None)
         (get (components cd) []).

(** ** Vocabulary of the statements *)

(** [m] appends the lines [L] and does nothing else. *)
Definition emits (m : M unit) (L : list string) : Prop :=
  forall s, m s = (Return tt, set_lines (fun l => l ++ L) s).

(** [m] raises [e], whatever the state. *)
Definition fails {A : Type} (m : M A) (e : exn) : Prop :=
  forall s, fst (m s) = Raise e.

(** [m] leaves the part [part] of the state as it was, whether it returns
    or raises. *)
Definition keeps {X A : Type} (part : state -> X) (m : M A) : Prop :=
  forall s, part (snd (m s)) = part s.

(** The body of the data-flow loop, as [render_data_flow] has it. *)
#[local] Abbreviation data_flow_body :=
  (fun comp : component =>
     let connections := get (comp_connections comp) [] in
     match connections with
     | [] => mret tt
     | _ :: _ =>
         name ← match comp_name comp with
                | Some name => mret name
                | None => raise (KeyError "name")
                end;
         emit ("### " ++ name);;
         for_each connections (fun conn =>
           let target := get (conn_target conn) "?" in
           let flow := get (conn_data_flow conn) "?" in
           emit ("- → **" ++ target ++ "**: " ++ flow));;
         emit ""
     end).

(** The body of the counting loop, as [render_risk_matrix] has it. *)
#[local] Abbreviation count_threat :=
  (fun t : threat =>
     let sev := get (t_severity t) "Baixa" in
     n ← gets (fun s => get (severity_counts s !! sev) 0);
     modify (set_severity_counts (insert sev (n + 1)));;
     let cat := get (t_category t) "Outro" in
     n ← gets (fun s => get (category_counts s !! cat) 0);
     modify (set_category_counts (insert cat (n + 1)))).

(** ** Main

    [main] binds the two documents to [components_data] and [stride_data] as
    the model calls return them.  The parsed command line is a record (the
    defaults are argparse's business), [env] is the environment after
    [load_dotenv], [fs] the readable files, and [ChatOpenAI model api_key] the
    client built from the two (with the temperature of the source).  The
    codec is read at the type of the document each call expects.  [sys.exit(1)]
    ends the run with the status [Exited 1]; the two [time.sleep] calls change
    nothing that is modelled. *)

Record arguments : Type := {
  args_image : string;
  args_output : string;
  args_openai_model : string
}.

Inductive exit_status : Type :=
| Finished
| Exited (code : nat).

Definition set_components_data (cd : arch_doc) (s : state) : state :=
  {| components_data := cd; stride_data := stride_data s;
     lines := lines s;
     severity_counts := severity_counts s; category_counts := category_counts s;
     files := files s; stdout := stdout s |}.

Definition set_stride_data (sd : threat_report) (s : state) : state :=
  {| components_data := components_data s; stride_data := sd;
     lines := lines s;
     severity_counts := severity_counts s; category_counts := category_counts s;
     files := files s; stdout := stdout s |}.

(** A call of a function that touches no state. *)
Definition lift {A : Type} (r : result A) : M A :=
  match r with
  | Return a => mret a
  | Raise e => raise e
  end.

(** [not api_key], for what [os.getenv] answers. *)
Definition unset (value : option string) : bool :=
  match value with
  | Some text => String.eqb text ""
  | None => true
  end.

(** [sum(len(entry.get("threats", [])) for entry in stride_analysis)] *)
Definition count_threats (stride_analysis : list entry) : nat :=
  list_sum (map (fun entry => List.length (get (threats entry) [])) stride_analysis).

Section Program.

Variable json_loads_components : string -> option arch_doc.
Variable json_loads_report : string -> option threat_report.
Variable json_dumps : list component -> string.
Variable ChatOpenAI : string -> string -> list HumanMessage -> string.
Variable COMPONENT_EXTRACTION_PROMPT : string.
Variables STRIDE_PROMPT_head STRIDE_PROMPT_mid STRIDE_PROMPT_tail : string.

Definition main (args : arguments) (env : gmap string string)
                (fs : gmap string (list Byte.byte)) (now : string) : M exit_status :=
  (* -- Validate inputs -- *)
  if negb (bool_decide (is_Some (fs !! args_image args))) then
    print ("[ERROR] Image file not found: " ++ args_image args);;
    mret (Exited 1)
  else
    let api_key := env !! "OPENAI_API_KEY"%string in
    if unset api_key then
      print "[ERROR] OPENAI_API_KEY environment variable is not set.";;
      print "        Set it via: export OPENAI_API_KEY='your-key-here'";;
      print "        Or create a .env file with: OPENAI_API_KEY=your-key-here";;
      mret (Exited 1)
    else
      (* -- Initialize LLM -- *)
      print ("[INIT] Using model: " ++ args_openai_model args);;
      let llm := ChatOpenAI (args_openai_model args) (get api_key "") in
      (* -- Step 1: Load image -- *)
      print ("[STEP 1/3] Loading image: " ++ args_image args);;
      '(image_b64, mime_type) ← lift (load_image_as_base64 fs (args_image args));
      (* -- Step 2: Extract components -- *)
      print "[STEP 2/3] Extracting architecture components …";;
      cd ← extract_components json_loads_components llm COMPONENT_EXTRACTION_PROMPT
             image_b64 mime_type;
      modify (set_components_data cd);;
      num_components ← gets (fun s => List.length (get (components (components_data s)) []));
      print ("         Found " ++ Str.of_nat num_components ++ " component(s).");;
      (* -- Step 3: STRIDE analysis -- *)
      print "[STEP 3/3] Performing STRIDE threat analysis …";;
      sd ← analyze_stride json_loads_report json_dumps llm
             STRIDE_PROMPT_head STRIDE_PROMPT_mid STRIDE_PROMPT_tail;
      modify (set_stride_data sd);;
      total_threats ← gets (fun s => count_threats (get (stride_analysis (stride_data s)) []));
      print ("         Identified " ++ Str.of_nat total_threats ++ " threat(s).");;
      (* -- Generate report -- *)
      print (Str.newline ++ "[REPORT] Generating report → " ++ args_output args);;
      generate_report now (args_image args) (args_output args);;
      print (Str.newline ++ "✅ Done! Report saved to: " ++ args_output args);;
      print ("   Components analyzed: " ++ Str.of_nat num_components);;
      print ("   Threats identified:  " ++ Str.of_nat total_threats);;
      overall ← gets (fun s => get (overall_risk_level (stride_data s)) "N/A");
      print ("   Overall risk level:  " ++ overall);;
      mret Finished.

End Program.

(** ** Vocabulary of the further statements *)

(** The reply reaches the parser and the strict parse rejects it, so that the
    brace repair is attempted. *)
Definition repair_attempted {Doc : Type} (json_loads : string -> option Doc)
                            (response : string) : bool :=
  match strip_fences response with
  | Return raw => match json_loads raw with Some _ => false | None => true end
  | Raise _ => false
  end.

(** What [extract_components] prints for a given reply. *)
Definition extraction_log {Doc : Type} (json_loads : string -> option Doc)
                          (response : string) : list string :=
  "[LLM] Extracting components from the diagram …"%string
  :: (if repair_attempted json_loads response
      then [ "[WARN] LLM response was not valid JSON. Attempting repair …"%string ]
      else []).

(** A threat whose severity is one of the four English labels. *)
Definition english_severity (t : threat) : bool :=
  match t_severity t with
  | Some sev => existsb (String.eqb sev) [ "Critical"; "High"; "Medium"; "Low" ]%string
  | None => false
  end.

(** The total of all counters of a dictionary of counts. *)
Definition total_count (counts : gmap string nat) : nat :=
  map_fold (fun _ n acc => n + acc) 0 counts.

(** A run to try the statements on: a codec that reads the empty object as
    a given document, and a command line, environment and image store. *)
Definition demo_loads {A : Type} (doc : A) (text : string) : option A :=
  if String.eqb text "{}" then Some doc else None.

Definition demo_args : arguments :=
  {| args_image := "diagram.png"; args_output := "stride_report.md";
     args_openai_model := "gpt-4o" |}.

Definition demo_env : gmap string string := {[ "OPENAI_API_KEY"%string := "sk-test"%string ]}.

Definition demo_fs : gmap string (list Byte.byte) :=
  {[ "diagram.png"%string := list_byte_of_string "PNG" ]}.

Section ProgramLog.

Variable json_loads_components : string -> option arch_doc.
Variable json_loads_report : string -> option threat_report.
Variable json_dumps : list component -> string.
Variable ChatOpenAI : string -> string -> list HumanMessage -> string.
Variable COMPONENT_EXTRACTION_PROMPT : string.
Variables STRIDE_PROMPT_head STRIDE_PROMPT_mid STRIDE_PROMPT_tail : string.




End ProgramLog.

(** * Properties *)

(** ** Strings *)

Lemma append_assoc (a b c : string) : ((a ++ b) ++ c = a ++ b ++ c)%string.
Proof. induction a as [|x a IH]; simpl; [reflexivity | now rewrite IH]. Qed.

Lemma append_nil_r (a : string) : (a ++ "")%string = a.
Proof. induction a as [|x a IH]; simpl; [reflexivity | now rewrite IH]. Qed.

Lemma length_append (a b : string) :
  String.length (a ++ b) = String.length a + String.length b.
Proof. induction a as [|x a IH]; simpl; [reflexivity | now rewrite IH]. Qed.

Lemma substring_whole (a b : string) : substring 0 (String.length a) (a ++ b) = a.
Proof. induction a as [|x a IH]; simpl; [now destruct b | now rewrite IH]. Qed.

Lemma substring_skip (a b : string) (n : nat) :
  substring (String.length a) n (a ++ b) = substring 0 n b.
Proof. induction a as [|x a IH]; simpl; [reflexivity | exact IH]. Qed.

Lemma rev_append (a b : string) : Str.rev (a ++ b) = (Str.rev b ++ Str.rev a)%string.
Proof.
  induction a as [|x a IH]; simpl.
  - now rewrite append_nil_r.
  - now rewrite IH, append_assoc.
Qed.

Lemma rev_involutive (a : string) : Str.rev (Str.rev a) = a.
Proof.
  induction a as [|x a IH]; simpl; [reflexivity |].
  now rewrite rev_append, IH.
Qed.

Lemma occurs_cons (c x : ascii) (s : string) :
  occurs c (String x s) <-> x = c \/ occurs c s.
Proof.
  split.
  - intros (pre & post & E). destruct pre as [|y pre]; simpl in E.
    + injection E as -> _. now left.
    + injection E as _ ->. right. now exists pre, post.
  - intros [-> | (pre & post & ->)].
    + now exists ""%string, s.
    + now exists (String x pre), post.
Qed.

Lemma occurs_nil (c : ascii) : ~ occurs c "".
Proof. intros (pre & post & E). now destruct pre. Qed.

Lemma occurs_append (c : ascii) (a b : string) :
  occurs c (a ++ b) <-> occurs c a \/ occurs c b.
Proof.
  induction a as [|x a IH]; simpl.
  - split; [now right | intros [H | H]; [now apply occurs_nil in H | exact H]].
  - rewrite !occurs_cons, IH. tauto.
Qed.

Lemma find_char_None (c : ascii) (s : string) :
  Str.find_char c s = None <-> ~ occurs c s.
Proof.
  induction s as [|x s IH]; simpl.
  - split; [intros _; apply occurs_nil | reflexivity].
  - rewrite occurs_cons. destruct (Ascii.eqb_spec x c) as [-> | Hne].
    + split; [discriminate | intros H; exfalso; apply H; now left].
    + destruct (Str.find_char c s).
      * split; [discriminate |]. intros H. exfalso.
        assert (Hs : ~ occurs c s) by tauto. apply IH in Hs. discriminate.
      * split; [| reflexivity]. intros _ [H | H]; [easy |]. now apply IH in H.
Qed.

Lemma rfind_char_None (c : ascii) (s : string) :
  Str.rfind_char c s = None <-> ~ occurs c s.
Proof.
  induction s as [|x s IH]; simpl.
  - split; [intros _; apply occurs_nil | reflexivity].
  - rewrite occurs_cons. destruct (Str.rfind_char c s).
    + split; [discriminate |]. intros H. exfalso.
      assert (Hs : ~ occurs c s) by tauto. apply IH in Hs. discriminate.
    + destruct (Ascii.eqb_spec x c) as [-> | Hne].
      * split; [discriminate | intros H; exfalso; apply H; now left].
      * split; [| reflexivity]. intros _ [H | H]; [easy |]. now apply IH in H.
Qed.

(** The first occurrence: the index is the length of what precedes it. *)
Lemma find_char_first (c : ascii) (pre post : string) :
  ~ occurs c pre ->
  Str.find_char c (pre ++ String c post) = Some (String.length pre).
Proof.
  induction pre as [|x pre IH]; simpl; intros H.
  - now rewrite Ascii.eqb_refl.
  - rewrite occurs_cons in H. destruct (Ascii.eqb_spec x c) as [-> | Hne]; [tauto |].
    rewrite IH by tauto. reflexivity.
Qed.

(** The last occurrence. *)
Lemma rfind_char_last (c : ascii) (pre post : string) :
  ~ occurs c post ->
  Str.rfind_char c (pre ++ String c post) = Some (String.length pre).
Proof.
  intros H. induction pre as [|x pre IH]; simpl.
  - apply rfind_char_None in H. rewrite H. now rewrite Ascii.eqb_refl.
  - now rewrite IH.
Qed.

Lemma slice_middle (pre sub post : string) :
  Str.slice (pre ++ sub ++ post)
            (Z.of_nat (String.length pre))
            (Z.of_nat (String.length pre + String.length sub)) = sub.
Proof.
  unfold Str.slice.
  replace (Z.to_nat (Z.of_nat (String.length pre + String.length sub)
                     - Z.of_nat (String.length pre))) with (String.length sub) by lia.
  rewrite Nat2Z.id, substring_skip. apply substring_whole.
Qed.

Lemma split_first_line_at (a rest : string) :
  ~ occurs Str.LF a ->
  Str.split_first_line (a ++ String Str.LF rest) = (a, Some rest).
Proof.
  induction a as [|x a IH]; simpl; intros H.
  - reflexivity.
  - rewrite occurs_cons in H. destruct (Ascii.eqb_spec x Str.LF) as [-> | Hne]; [tauto |].
    rewrite IH by tauto. reflexivity.
Qed.

Lemma endswith_fence (a : string) : Str.endswith (a ++ "```") "```" = true.
Proof. unfold Str.endswith. rewrite rev_append. now destruct (Str.rev a). Qed.

Lemma startswith_fence (a : string) : Str.startswith ("```" ++ a) "```" = true.
Proof. unfold Str.startswith. now destruct a. Qed.

Lemma drop_last3_fence (a : string) : Str.drop_last3 (a ++ "```") = a.
Proof.
  unfold Str.drop_last3. rewrite length_append. simpl String.length.
  replace (String.length a + 3 - 3) with (String.length a) by lia.
  apply substring_whole.
Qed.

Lemma lstrip_fence (a : string) : Str.lstrip ("```" ++ a) = ("```" ++ a)%string.
Proof. reflexivity. Qed.

Lemma rstrip_fence (a : string) : Str.rstrip (a ++ "```") = (a ++ "```")%string.
Proof.
  unfold Str.rstrip. rewrite rev_append.
  change (Str.lstrip_rev (Str.rev "```" ++ Str.rev a))
    with (Str.rev "```" ++ Str.rev a)%string.
  now rewrite <- rev_append, rev_involutive.
Qed.

(** [strip] removes multi-byte whitespace too: here a no-break space, a tab
    and a line separator around the text. *)
Example strip_unicode_whitespace :
  Str.strip (String "194" (String "160" (String "009" "{ }"))
             ++ String "226" (String "128" (String "168" Str.newline)))
  = "{ }"%string.
Proof. reflexivity. Qed.

(** ** The two model calls *)

(** Replies as the program meets them: bare, fenced, with prose around the
    object, fenced on a single line, and without any brace. *)
Example handle_reply_samples :
  map (handle_reply loads_empty_object "Could not parse LLM response as JSON:")
      [ " {} ";
        fenced "json" ("{}" ++ Str.newline);
        "Here you are: {} Anything else?";
        "```{}```";
        "no object here" ]%string
  = [ Return 0;
      Return 0;
      Return 0;
      Raise IndexError;
      Raise (ValueError ("Could not parse LLM response as JSON:" ++ Str.newline
                           ++ "no object here")) ].
Proof. reflexivity. Qed.

Ltac run_monad :=
  unfold mbind, M_bind, mret, M_ret, print, gets, modify, raise; simpl.

Section ModelCallFacts.

Context {Doc : Type}.
Variable json_loads : string -> option Doc.
Variable json_dumps : list component -> string.
Variable PROMPT : string.
Variables HEAD MID TAIL : string.

(** What [extract_components] returns or raises is the shared reply
    handling applied to the model's reply. *)
Lemma extract_components_outcome
    (llm_invoke : list HumanMessage -> string) (image_b64 mime_type : string) (s : state) :
  fst (extract_components json_loads llm_invoke PROMPT image_b64 mime_type s)
  = handle_reply json_loads "Could not parse LLM response as JSON:"
      (llm_invoke [extraction_message PROMPT image_b64 mime_type]).
Proof.
  unfold extract_components, handle_reply, strip_fences, parse_step, extraction_message.
  run_monad.
  repeat (case_match; simpl; try reflexivity; try congruence).
Qed.

Lemma analyze_stride_outcome (llm_invoke : list HumanMessage -> string) (s : state) :
  fst (analyze_stride json_loads json_dumps llm_invoke HEAD MID TAIL s)
  = handle_reply json_loads "Could not parse STRIDE response as JSON:"
      (llm_invoke [analysis_message json_dumps HEAD MID TAIL (components_data s)]).
Proof.
  unfold analyze_stride, handle_reply, strip_fences, parse_step, analysis_message.
  run_monad.
  repeat (case_match; simpl; try reflexivity; try congruence).
Qed.

(** The brace repair on a text the strict parser rejects. *)
Lemma parse_step_repairs (complaint raw pre mid post : string) :
  json_loads raw = None ->
  raw = (pre ++ "{" ++ mid ++ "}" ++ post)%string ->
  ~ occurs "{" pre -> ~ occurs "}" post ->
  parse_step json_loads complaint raw
  = match json_loads ("{" ++ mid ++ "}") with
    | Some doc => Return doc
    | None => Raise JSONDecodeError
    end.
Proof.
  intros Hrej -> Hpre Hpost. unfold parse_step. rewrite Hrej.
  assert (Hfind : Str.find "{" (pre ++ "{" ++ mid ++ "}" ++ post)
                  = Z.of_nat (String.length pre)).
  { unfold Str.find.
    change ("{" ++ mid ++ "}" ++ post)%string with (String "{" (mid ++ "}" ++ post)).
    now rewrite (find_char_first "{" pre (mid ++ "}" ++ post) Hpre). }
  assert (Hrfind : (Str.rfind "}" (pre ++ "{" ++ mid ++ "}" ++ post) + 1)%Z
                   = Z.of_nat (String.length pre + String.length ("{" ++ mid ++ "}"))).
  { unfold Str.rfind.
    assert (E : (pre ++ "{" ++ mid ++ "}" ++ post)%string
                = ((pre ++ "{" ++ mid) ++ String "}" post)%string)
      by (now rewrite !append_assoc).
    rewrite E, (rfind_char_last "}" _ post Hpost), !length_append.
    simpl String.length. lia. }
  assert (Hslice : Str.slice (pre ++ "{" ++ mid ++ "}" ++ post)
                     (Z.of_nat (String.length pre))
                     (Z.of_nat (String.length pre + String.length ("{" ++ mid ++ "}")))
                   = ("{" ++ mid ++ "}")%string).
  { assert (E : (pre ++ "{" ++ mid ++ "}" ++ post)%string
                = (pre ++ ("{" ++ mid ++ "}") ++ post)%string)
      by (now rewrite !append_assoc).
    rewrite E at 1. apply slice_middle. }
  rewrite Hfind, Hrfind, Hslice.
  destruct (Z.eqb_spec (Z.of_nat (String.length pre)) (-1)) as [E | _]; [lia |].
  destruct (Z.gtb_spec (Z.of_nat (String.length pre + String.length ("{" ++ mid ++ "}")))
                       (Z.of_nat (String.length pre))) as [_ | E].
  - reflexivity.
  - simpl String.length in E. lia.
Qed.

(** Without an opening or without a closing brace there is nothing to
    repair. *)
Lemma parse_step_gives_up (complaint raw : string) :
  json_loads raw = None ->
  ~ occurs "{" raw \/ ~ occurs "}" raw ->
  parse_step json_loads complaint raw
  = Raise (ValueError (complaint ++ Str.newline ++ raw)).
Proof.
  intros Hrej H. unfold parse_step. rewrite Hrej. unfold Str.find, Str.rfind.
  destruct H as [H | H].
  - apply find_char_None in H. rewrite H. reflexivity.
  - apply rfind_char_None in H. rewrite H.
    destruct (Str.find_char "{" raw) as [i |]; [| reflexivity].
    destruct (Z.gtb_spec (-1 + 1) (Z.of_nat i)) as [E | _]; [lia |].
    now rewrite andb_false_r.
Qed.

(** Two replies that reach the parse step as the same text are handled
    alike, down to what is printed. *)
Lemma extract_components_reply (r1 r2 image_b64 mime_type : string) (s : state) :
  strip_fences r1 = strip_fences r2 ->
  extract_components json_loads (fun _ => r1) PROMPT image_b64 mime_type s
  = extract_components json_loads (fun _ => r2) PROMPT image_b64 mime_type s.
Proof.
  unfold extract_components, strip_fences. run_monad. intros H.
  repeat (case_match; simplify_eq; simpl in *; try reflexivity; try congruence).
Qed.

Lemma analyze_stride_reply (r1 r2 : string) (s : state) :
  strip_fences r1 = strip_fences r2 ->
  analyze_stride json_loads json_dumps (fun _ => r1) HEAD MID TAIL s
  = analyze_stride json_loads json_dumps (fun _ => r2) HEAD MID TAIL s.
Proof.
  unfold analyze_stride, strip_fences. run_monad. intros H.
  repeat (case_match; simplify_eq; simpl in *; try reflexivity; try congruence).
Qed.

Lemma strip_fenced (info payload : string) :
  ~ occurs Str.LF info ->
  strip_fences (fenced info payload) = Return (Str.strip payload).
Proof.
  intros Hinfo. unfold strip_fences, fenced.
  assert (Hstrip : Str.strip ("```" ++ info ++ Str.newline ++ payload ++ "```")
                   = ("```" ++ info ++ Str.newline ++ payload ++ "```")%string).
  { unfold Str.strip. rewrite lstrip_fence.
    replace ("```" ++ info ++ Str.newline ++ payload ++ "```")%string
      with (("```" ++ info ++ Str.newline ++ payload) ++ "```")%string
      by (now rewrite !append_assoc).
    apply rstrip_fence. }
  rewrite Hstrip, startswith_fence.
  replace ("```" ++ info ++ Str.newline ++ payload ++ "```")%string
    with (("```" ++ info) ++ String Str.LF (payload ++ "```"))%string
    by (now rewrite !append_assoc).
  rewrite split_first_line_at.
  - lazy beta iota delta [snd]. now rewrite endswith_fence, drop_last3_fence.
  - rewrite occurs_append. intros [H | H]; [| tauto].
    apply find_char_None in H; [exact H | reflexivity].
Qed.

Lemma strip_unfenced (payload : string) :
  Str.startswith (Str.strip payload) "```" = false ->
  strip_fences payload = Return (Str.strip payload).
Proof. intros H. unfold strip_fences. now rewrite H. Qed.

(** C3.  Let [raw] be the text a reply reaches the parser as, and let the
    strict parser reject it.  If [raw] reads [pre ++ "{" ++ mid ++ "}" ++ post]
    with no opening brace in [pre] and no closing brace in [post], and the
    text from the first opening to the last closing brace parses to [doc],
    then [extract_components] and [analyze_stride] both return [doc].  If
    [raw] has no opening brace or no closing brace at all, both raise the
    [ValueError] that reports the unparsable text. *)
Theorem repair_recovers_embedded_object
    (response raw image_b64 mime_type : string) (s : state) :
  strip_fences response = Return raw ->
  json_loads raw = None ->
  (forall (pre mid post : string) (doc : Doc),
      raw = (pre ++ "{" ++ mid ++ "}" ++ post)%string ->
      ~ occurs "{" pre -> ~ occurs "}" post ->
      json_loads ("{" ++ mid ++ "}") = Some doc ->
      fst (extract_components json_loads (fun _ => response) PROMPT image_b64 mime_type s)
      = Return doc
      /\ fst (analyze_stride json_loads json_dumps (fun _ => response) HEAD MID TAIL s)
         = Return doc)
  /\ (~ occurs "{" raw \/ ~ occurs "}" raw ->
      fst (extract_components json_loads (fun _ => response) PROMPT image_b64 mime_type s)
      = Raise (ValueError ("Could not parse LLM response as JSON:" ++ Str.newline ++ raw))
      /\ fst (analyze_stride json_loads json_dumps (fun _ => response) HEAD MID TAIL s)
         = Raise (ValueError ("Could not parse STRIDE response as JSON:" ++ Str.newline ++ raw))).
Proof.
  intros Hraw Hrej.
  rewrite extract_components_outcome, analyze_stride_outcome.
  unfold handle_reply. rewrite Hraw. split.
  - intros pre mid post doc E Hpre Hpost Hdoc.
    rewrite !(parse_step_repairs _ raw pre mid post Hrej E Hpre Hpost), Hdoc.
    now split.
  - intros H. now rewrite !(parse_step_gives_up _ raw Hrej H).
Qed.

(** C4.  A reply that is a payload inside a fenced code block reaches the
    parser as the same text as the payload sent bare, so both functions
    behave on the fenced reply exactly as on the bare payload.  The opening
    fence line ends at the first line feed, and the bare payload is not
    itself fenced. *)
Theorem fence_stripping_transparent
    (info payload image_b64 mime_type : string) (s : state) :
  ~ occurs Str.LF info ->
  Str.startswith (Str.strip payload) "```" = false ->
  strip_fences (fenced info payload) = strip_fences payload
  /\ extract_components json_loads (fun _ => fenced info payload) PROMPT image_b64 mime_type s
     = extract_components json_loads (fun _ => payload) PROMPT image_b64 mime_type s
  /\ analyze_stride json_loads json_dumps (fun _ => fenced info payload) HEAD MID TAIL s
     = analyze_stride json_loads json_dumps (fun _ => payload) HEAD MID TAIL s.
Proof.
  intros Hinfo Hbare.
  assert (E : strip_fences (fenced info payload) = strip_fences payload).
  { now rewrite strip_fenced, strip_unfenced. }
  split; [exact E |]. split.
  - now apply extract_components_reply.
  - now apply analyze_stride_reply.
Qed.

End ModelCallFacts.

Lemma repair_recovers_embedded_object_witness :
  fst (extract_components loads_empty_object (fun _ => "Sure: {} done") "" "" "" empty_state)
  = Return 0
  /\ fst (analyze_stride loads_empty_object (fun _ => "") (fun _ => "Sure: {} done")
            "" "" "" empty_state)
     = Return 0.
Proof.
  apply (proj1 (repair_recovers_embedded_object
                  loads_empty_object (fun _ => ""%string) "" "" "" ""
                  "Sure: {} done" "Sure: {} done" "" "" empty_state
                  eq_refl eq_refl)
               "Sure: " "" " done" 0).
  - reflexivity.
  - apply find_char_None. reflexivity.
  - apply find_char_None. reflexivity.
  - reflexivity.
Defined.

Lemma fence_stripping_transparent_witness :
  extract_components loads_empty_object
    (fun _ => fenced "json" ("{}" ++ Str.newline)) "" "" "" empty_state
  = extract_components loads_empty_object
      (fun _ => ("{}" ++ Str.newline)%string) "" "" "" empty_state.
Proof.
  apply (fence_stripping_transparent
           loads_empty_object (fun _ => ""%string) "" "" "" ""
           "json" ("{}" ++ Str.newline) "" "" empty_state).
  - apply find_char_None. reflexivity.
  - reflexivity.
Defined.

(** ** Image helpers *)

(** The test vectors of RFC 4648, section 10. *)
Example standard_b64encode_vectors :
  map (fun text => Base64.standard_b64encode (list_byte_of_string text))
      [ ""; "f"; "fo"; "foo"; "foob"; "fooba"; "foobar" ]
  = [ ""; "Zg=="; "Zm8="; "Zm9v"; "Zm9vYg=="; "Zm9vYmE="; "Zm9vYmFy" ].
Proof. reflexivity. Qed.

Example suffix_samples :
  map (fun p => lower (PurePath.suffix p))
      [ "diagram.png"; "shots/Photo.JPG"; "a.b/scan.Jpeg"; "x.tar.gz"; ".png";
        "plain"; "odd."; "dir.gif/"; "dir.d/file" ]
  = [ ".png"; ".jpg"; ".jpeg"; ".gz"; ""; ""; ""; ".gif"; "" ].
Proof. reflexivity. Qed.

Lemma mime_map_other (ext : string) :
  ext ∉ [ ".png"; ".jpg"; ".jpeg"; ".gif"; ".webp"; ".bmp" ] ->
  mime_map !! ext = None.
Proof.
  intros H. unfold mime_map.
  rewrite !lookup_insert_ne, lookup_empty; [reflexivity | ..];
    intros <-; apply H; set_solver.
Qed.

(** C5.  A path that is not in the file system makes [load_image_as_base64]
    raise [FileNotFoundError].  Otherwise it returns the base64 text of the
    file's bytes together with a MIME type fixed by the lower-cased suffix of
    the path: the one the table gives for .png, .jpg, .jpeg, .gif, .webp and
    .bmp, and image/png for every other suffix. *)
Theorem load_image_contract (fs : gmap string (list Byte.byte)) (image_path : string) :
  (fs !! image_path = None ->
   load_image_as_base64 fs image_path
   = Raise (FileNotFoundError ("Image not found: " ++ image_path)))
  /\ (forall content : list Byte.byte,
        fs !! image_path = Some content ->
        exists mime_type : string,
          load_image_as_base64 fs image_path
          = Return (Base64.standard_b64encode content, mime_type)
          /\ (lower (PurePath.suffix image_path) = ".png" -> mime_type = "image/png")
          /\ (lower (PurePath.suffix image_path) = ".jpg" -> mime_type = "image/jpeg")
          /\ (lower (PurePath.suffix image_path) = ".jpeg" -> mime_type = "image/jpeg")
          /\ (lower (PurePath.suffix image_path) = ".gif" -> mime_type = "image/gif")
          /\ (lower (PurePath.suffix image_path) = ".webp" -> mime_type = "image/webp")
          /\ (lower (PurePath.suffix image_path) = ".bmp" -> mime_type = "image/bmp")
          /\ (lower (PurePath.suffix image_path)
                ∉ [ ".png"; ".jpg"; ".jpeg"; ".gif"; ".webp"; ".bmp" ] ->
              mime_type = "image/png")).
Proof.
  unfold load_image_as_base64. split.
  - now intros ->.
  - intros content ->. eexists. split; [reflexivity |].
    repeat split; intros H; try (rewrite H; reflexivity).
    now rewrite (mime_map_other _ H).
Qed.

Lemma load_image_contract_witness :
  load_image_as_base64 {[ "shots/Photo.JPG" := list_byte_of_string "foobar" ]} "shots/Photo.JPG"
  = Return ("Zm9vYmFy", "image/jpeg")
  /\ load_image_as_base64 {[ "shots/Photo.JPG" := list_byte_of_string "foobar" ]} "missing.png"
     = Raise (FileNotFoundError "Image not found: missing.png").
Proof.
  split.
  - destruct (proj2 (load_image_contract
                       {[ "shots/Photo.JPG" := list_byte_of_string "foobar" ]}
                       "shots/Photo.JPG")
                    (list_byte_of_string "foobar"))
      as (mime & -> & _ & Hjpg & _); [reflexivity |].
    now rewrite Hjpg.
  - apply (proj1 (load_image_contract
                    {[ "shots/Photo.JPG" := list_byte_of_string "foobar" ]} "missing.png")).
    reflexivity.
Defined.

(** ** Report generation: the lines each block appends *)

Lemma set_lines_append (A B : list string) (s : state) :
  set_lines (fun l => l ++ B) (set_lines (fun l => l ++ A) s)
  = set_lines (fun l => l ++ (A ++ B)) s.
Proof. unfold set_lines; simpl. f_equal. now rewrite app_assoc. Qed.

Lemma set_lines_nothing (s : state) : set_lines (fun l => l ++ []) s = s.
Proof. destruct s; unfold set_lines; simpl. f_equal. apply app_nil_r. Qed.

Lemma emits_emit (line : string) : emits (emit line) [line].
Proof. intros s. reflexivity. Qed.

Lemma emits_ret : emits (mret tt) [].
Proof. intros s. unfold mret, M_ret. now rewrite set_lines_nothing. Qed.

Lemma emits_bind (m1 m2 : M unit) (L1 L2 : list string) :
  emits m1 L1 -> emits m2 L2 -> emits (m1;; m2) (L1 ++ L2).
Proof.
  intros H1 H2 s. unfold mbind, M_bind. rewrite H1, H2. now rewrite set_lines_append.
Qed.

Lemma emits_emit_then (line : string) (m : M unit) (L : list string) :
  emits m L -> emits (emit line;; m) (line :: L).
Proof. intros H. apply (emits_bind _ _ [line] L); [apply emits_emit | exact H]. Qed.

Lemma emits_for_each {A : Type} (body : A -> M unit) (f : A -> list string) (l : list A) :
  (forall x, emits (body x) (f x)) ->
  emits (for_each l body) (concat (map f l)).
Proof.
  intros H. induction l as [|x l IH]; simpl.
  - apply emits_ret.
  - now apply emits_bind.
Qed.

Lemma emits_for_each_line {A : Type} (f : A -> string) (l : list A) :
  emits (for_each l (fun x => emit (f x))) (map f l).
Proof.
  induction l as [|x l IH]; simpl.
  - apply emits_ret.
  - now apply emits_emit_then.
Qed.

Lemma fails_bind_first {A B : Type} (m : M A) (k : A -> M B) (e : exn) :
  fails m e -> fails (m ≫= k) e.
Proof.
  intros H s. specialize (H s). unfold mbind, M_bind.
  destruct (m s) as [[a | e'] s']; simpl in *; congruence.
Qed.

Lemma fails_bind_second (m1 m2 : M unit) (L : list string) (e : exn) :
  emits m1 L -> fails m2 e -> fails (m1;; m2) e.
Proof. intros H1 H2 s. unfold mbind, M_bind. rewrite H1. apply H2. Qed.

Ltac emits_steps :=
  repeat first
    [ apply emits_emit
    | apply emits_emit_then
    | apply emits_for_each_line ].

Lemma render_header_emits (now image_path overall_risk : string) :
  emits (render_header now image_path overall_risk)
        (header_lines now image_path overall_risk).
Proof. unfold render_header, header_lines. emits_steps. Qed.

Lemma render_executive_summary_emits (exec_summary : string) :
  emits (render_executive_summary exec_summary) (executive_summary_lines exec_summary).
Proof. unfold render_executive_summary, executive_summary_lines. emits_steps. Qed.

Lemma render_architecture_overview_emits (arch_summary : string) :
  emits (render_architecture_overview arch_summary) (architecture_overview_lines arch_summary).
Proof. unfold render_architecture_overview, architecture_overview_lines. emits_steps. Qed.

Lemma render_footer_emits : emits render_footer footer_lines.
Proof. unfold render_footer, footer_lines. emits_steps. Qed.

Lemma concat_singletons {A B : Type} (f : A -> B) (l : list A) :
  concat (map (fun x => [f x]) l) = map f l.
Proof. induction l as [|x l IH]; simpl; [reflexivity | now rewrite IH]. Qed.

Lemma render_components_emits (comps : list component) :
  emits (render_components comps) (components_lines comps).
Proof.
  unfold render_components, components_lines.
  do 4 apply emits_emit_then.
  apply emits_bind; [| apply emits_emit].
  rewrite <- concat_singletons. apply emits_for_each.
  intros [i comp]. apply emits_emit.
Qed.

Lemma data_flow_body_runs (comp : component) :
  match data_flow_section comp with
  | Return L => emits (data_flow_body comp) L
  | Raise e => fails (data_flow_body comp) e
  end.
Proof.
  unfold data_flow_section. cbv beta zeta.
  destruct (get (comp_connections comp) []) as [|conn conns].
  - apply emits_ret.
  - destruct (comp_name comp) as [name |].
    + change (emits (emit ("### " ++ name);;
                     for_each (conn :: conns) (fun c => emit (connection_line c));;
                     emit "")
                    (("### " ++ name)%string :: map connection_line (conn :: conns) ++ [""])).
      apply emits_emit_then. apply emits_bind; [apply emits_for_each_line | apply emits_emit].
    + intros s. reflexivity.
Qed.

Lemma render_data_flow_runs (comps : list component) :
  match data_flow_sections comps with
  | Return L => emits (render_data_flow comps) ("## 🔄 Fluxo de Dados" :: "" :: L)
  | Raise e => fails (render_data_flow comps) e
  end.
Proof.
  unfold render_data_flow.
  assert (Hloop : match data_flow_sections comps with
                  | Return L => emits (for_each comps data_flow_body) L
                  | Raise e => fails (for_each comps data_flow_body) e
                  end).
  { induction comps as [|comp comps IH]; cbn [data_flow_sections for_each].
    - apply emits_ret.
    - pose proof (data_flow_body_runs comp) as Hc.
      destruct (data_flow_section comp) as [here | e].
      + destruct (data_flow_sections comps) as [after | e].
        * now apply emits_bind.
        * now apply (fails_bind_second _ _ here).
      + now apply fails_bind_first. }
  destruct (data_flow_sections comps) as [L | e].
  - now do 2 apply emits_emit_then.
  - apply (fails_bind_second _ _ ["## 🔄 Fluxo de Dados"]); [apply emits_emit |].
    apply (fails_bind_second _ _ [""%string]); [apply emits_emit | exact Hloop].
Qed.

Lemma render_stride_analysis_emits (sa : list entry) :
  emits (render_stride_analysis sa) (stride_lines sa).
Proof.
  unfold render_stride_analysis, stride_lines.
  do 4 apply emits_emit_then.
  apply emits_for_each. intros e. unfold stride_section. cbv zeta.
  do 2 apply emits_emit_then.
  destruct (get (threats e) []) as [|t ts].
  - emits_steps.
  - do 2 apply emits_emit_then.
    apply emits_bind; [| apply emits_emit].
    exact (emits_for_each_line threat_row (t :: ts)).
Qed.

(** ** Report generation: the tallies *)

Lemma occurrences_cons (label key : string) (keys : list string) :
  occurrences label (key :: keys)
  = (if String.eqb label key then 1 else 0) + occurrences label keys.
Proof. unfold occurrences. simpl. now destruct (String.eqb label key). Qed.

Lemma occurrences_app (label : string) (a b : list string) :
  occurrences label (a ++ b) = occurrences label a + occurrences label b.
Proof. unfold occurrences. now rewrite List.filter_app, length_app. Qed.

Lemma tally_app (m : gmap string nat) (a b : list string) :
  tally m (a ++ b) = tally (tally m a) b.
Proof. apply fold_left_app. Qed.

(** A counter ends at its initial value plus the number of keys equal to
    its label. *)
Lemma tally_lookup (label : string) (keys : list string) (m : gmap string nat) :
  get (tally m keys !! label) 0 = get (m !! label) 0 + occurrences label keys.
Proof.
  revert m. induction keys as [|key keys IH]; intros m.
  - unfold occurrences. simpl. lia.
  - change (tally m (key :: keys))
      with (tally (<[key := get (m !! key) 0 + 1]> m) keys).
    rewrite IH, occurrences_cons.
    destruct (String.eqb_spec label key) as [-> | Hne].
    + rewrite lookup_insert_eq. simpl. lia.
    + rewrite lookup_insert_ne by congruence. simpl. lia.
Qed.

Lemma run_bind {A B : Type} (m : M A) (k : A -> M B) (s s1 : state) (a : A) :
  m s = (Return a, s1) -> (m ≫= k) s = k a s1.
Proof. intros H. unfold mbind, M_bind. now rewrite H. Qed.

(** The inner counting loop over the threats of one entry. *)
Lemma count_threats_run (ts : list threat) (s : state) :
  for_each ts count_threat s
  = (Return tt,
     set_category_counts (fun m => tally m (map category_key ts))
       (set_severity_counts (fun m => tally m (map severity_key ts)) s)).
Proof.
  revert s. induction ts as [|t ts IH]; intros s.
  - now destruct s.
  - cbn [for_each]. erewrite run_bind; [| reflexivity]. rewrite IH. reflexivity.
Qed.

(** The whole counting loop. *)
Lemma count_entries_run (sa : list entry) (s : state) :
  for_each sa (fun entry => for_each (get (threats entry) []) count_threat) s
  = (Return tt,
     set_category_counts (fun m => tally m (map category_key (all_threats sa)))
       (set_severity_counts (fun m => tally m (map severity_key (all_threats sa))) s)).
Proof.
  revert s. induction sa as [|e sa IH]; intros s.
  - now destruct s.
  - cbn [for_each]. erewrite run_bind; [| apply count_threats_run].
    rewrite IH. unfold all_threats. cbn [map concat].
    rewrite !map_app. unfold set_category_counts, set_severity_counts.
    cbn [severity_counts category_counts components_data stride_data lines files stdout].
    now rewrite !tally_app.
Qed.

(** [SEVERITY_EMOJI] knows the four English labels and no Portuguese one. *)
Lemma SEVERITY_EMOJI_english :
  SEVERITY_EMOJI !! "Critical" = Some "🔴"
  /\ SEVERITY_EMOJI !! "High" = Some "🟠"
  /\ SEVERITY_EMOJI !! "Medium" = Some "🟡"
  /\ SEVERITY_EMOJI !! "Low" = Some "🟢".
Proof. repeat split; reflexivity. Qed.

Lemma SEVERITY_EMOJI_portuguese :
  SEVERITY_EMOJI !! "Crítica" = None
  /\ SEVERITY_EMOJI !! "Alta" = None
  /\ SEVERITY_EMOJI !! "Média" = None
  /\ SEVERITY_EMOJI !! "Baixa" = None.
Proof. repeat split; reflexivity. Qed.

(** The row-emission loop of the severity table: four of the eight labels
    pass the emoji test. *)
Lemma severity_rows_run (s : state) :
  for_each ["Crítica"; "Alta"; "Média"; "Baixa"; "Critical"; "High"; "Medium"; "Low"]
    (fun sev =>
       let emoji := get (SEVERITY_EMOJI !! sev) "⚪" in
       if negb (String.eqb emoji "⚪") then
         n ← gets (fun s => get (severity_counts s !! sev) 0);
         emit ("| " ++ emoji ++ " " ++ sev ++ " | " ++ Str.of_nat n ++ " |")
       else mret tt) s
  = (Return tt,
     set_lines (fun l => l ++
       [ severity_row "🔴" "Critical" (get (severity_counts s !! "Critical") 0);
         severity_row "🟠" "High" (get (severity_counts s !! "High") 0);
         severity_row "🟡" "Medium" (get (severity_counts s !! "Medium") 0);
         severity_row "🟢" "Low" (get (severity_counts s !! "Low") 0) ]) s).
Proof.
  destruct SEVERITY_EMOJI_english as (Hc & Hh & Hm & Hl).
  destruct SEVERITY_EMOJI_portuguese as (Pc & Pa & Pm & Pb).
  unfold for_each. cbv zeta.
  rewrite Hc, Hh, Hm, Hl, Pc, Pa, Pm, Pb.
  change (get (A:=string) None "⚪") with "⚪"%string.
  change (get (Some "🔴"%string) "⚪") with "🔴"%string.
  change (get (Some "🟠"%string) "⚪") with "🟠"%string.
  change (get (Some "🟡"%string) "⚪") with "🟡"%string.
  change (get (Some "🟢"%string) "⚪") with "🟢"%string.
  change (negb ("⚪" =? "⚪")%string) with false.
  change (negb ("🔴" =? "⚪")%string) with true.
  change (negb ("🟠" =? "⚪")%string) with true.
  change (negb ("🟡" =? "⚪")%string) with true.
  change (negb ("🟢" =? "⚪")%string) with true.
  cbv iota. unfold severity_row. run_monad.
  unfold emit, modify, set_lines. simpl.
  do 2 f_equal. now rewrite <- !app_assoc.
Qed.

Lemma category_rows_run (s : state) :
  for_each [ "Spoofing"; "Tampering"; "Repudiation";
             "Information Disclosure"; "Denial of Service"; "Elevation of Privilege" ]
    (fun cat =>
       n ← gets (fun s => get (category_counts s !! cat) 0);
       emit ("| " ++ cat ++ " | " ++ Str.of_nat n ++ " |")) s
  = (Return tt,
     set_lines (fun l => l ++
       map (fun label => category_row label (get (category_counts s !! label) 0))
           STRIDE_CATEGORIES) s).
Proof.
  unfold for_each, STRIDE_CATEGORIES, category_row. run_monad.
  unfold emit, modify, set_lines. simpl.
  do 2 f_equal. now rewrite <- !app_assoc.
Qed.

Lemma severity_counts_init_english :
  get (severity_counts_init !! "Critical") 0 = 0
  /\ get (severity_counts_init !! "High") 0 = 0
  /\ get (severity_counts_init !! "Medium") 0 = 0
  /\ get (severity_counts_init !! "Low") 0 = 0.
Proof. repeat split; reflexivity. Qed.

Lemma severity_counts_init_portuguese :
  get (severity_counts_init !! "Crítica") 0 = 0
  /\ get (severity_counts_init !! "Alta") 0 = 0
  /\ get (severity_counts_init !! "Média") 0 = 0
  /\ get (severity_counts_init !! "Baixa") 0 = 0.
Proof. repeat split; reflexivity. Qed.

Lemma tally_empty_lookup (label : string) (keys : list string) :
  get (tally ∅ keys !! label) 0 = occurrences label keys.
Proof. rewrite tally_lookup, lookup_empty. reflexivity. Qed.

(** Updates of different fields commute; an update after an assignment is
    an assignment. *)
Lemma set_severity_counts_lines f g (s : state) :
  set_severity_counts f (set_lines g s) = set_lines g (set_severity_counts f s).
Proof. reflexivity. Qed.

Lemma set_category_counts_lines f g (s : state) :
  set_category_counts f (set_lines g s) = set_lines g (set_category_counts f s).
Proof. reflexivity. Qed.

Lemma set_severity_counts_category f g (s : state) :
  set_severity_counts f (set_category_counts g s)
  = set_category_counts g (set_severity_counts f s).
Proof. reflexivity. Qed.

Lemma set_severity_counts_assigned f (m : gmap string nat) (s : state) :
  set_severity_counts f (set_severity_counts (fun _ => m) s)
  = set_severity_counts (fun _ => f m) s.
Proof. reflexivity. Qed.

Lemma set_category_counts_assigned f (m : gmap string nat) (s : state) :
  set_category_counts f (set_category_counts (fun _ => m) s)
  = set_category_counts (fun _ => f m) s.
Proof. reflexivity. Qed.

Lemma set_lines_assigned f (l : list string) (s : state) :
  set_lines f (set_lines (fun _ => l) s) = set_lines (fun _ => f l) s.
Proof. reflexivity. Qed.

Ltac lines_outward :=
  repeat first
    [ rewrite set_severity_counts_lines
    | rewrite set_category_counts_lines
    | rewrite set_severity_counts_category ].

(** The risk-matrix block: the lines it appends and the counters it leaves. *)
Lemma render_risk_matrix_run (sa : list entry) (s : state) :
  render_risk_matrix sa s
  = (Return tt,
     set_lines (fun l => l ++ risk_matrix_lines sa)
       (set_category_counts
          (fun _ => tally ∅ (map category_key (all_threats sa)))
          (set_severity_counts
             (fun _ => tally severity_counts_init (map severity_key (all_threats sa)))
             s))).
Proof.
  destruct severity_counts_init_english as (Hc & Hh & Hm & Hl).
  unfold render_risk_matrix.
  do 6 (erewrite run_bind; [| reflexivity]).
  erewrite run_bind; [| apply count_entries_run].
  do 4 (erewrite run_bind; [| reflexivity]).
  erewrite run_bind; [| apply severity_rows_run].
  do 5 (erewrite run_bind; [| reflexivity]).
  erewrite run_bind; [| apply category_rows_run].
  unfold emit, modify.
  cbn [set_lines set_severity_counts set_category_counts
       lines severity_counts category_counts files stdout components_data stride_data].
  fold severity_counts_init.
  unfold STRIDE_CATEGORIES. cbn [map].
  rewrite !tally_empty_lookup, !tally_lookup, Hc, Hh, Hm, Hl.
  cbn [Nat.add].
  lines_outward.
  rewrite set_severity_counts_assigned, set_category_counts_assigned.
  rewrite !set_lines_append.
  reflexivity.
Qed.

(** ** What a call leaves untouched *)

Section Frame.

Context {X : Type}.
Variable part : state -> X.

Lemma keeps_ret {A : Type} (a : A) : keeps part (mret a).
Proof. intros s. reflexivity. Qed.

Lemma keeps_raise {A : Type} (e : exn) : keeps part (raise (A:=A) e).
Proof. intros s. reflexivity. Qed.

Lemma keeps_gets {A : Type} (f : state -> A) : keeps part (gets f).
Proof. intros s. reflexivity. Qed.

Lemma keeps_modify (f : state -> state) :
  (forall s, part (f s) = part s) -> keeps part (modify f).
Proof. intros H s. apply H. Qed.

Lemma keeps_bind {A B : Type} (m : M A) (k : A -> M B) :
  keeps part m -> (forall a, keeps part (k a)) -> keeps part (m ≫= k).
Proof.
  intros Hm Hk s. specialize (Hm s). unfold mbind, M_bind.
  destruct (m s) as [[a | e] s1]; simpl in *.
  - now rewrite Hk.
  - exact Hm.
Qed.

Lemma keeps_for_each {A : Type} (l : list A) (body : A -> M unit) :
  (forall x, keeps part (body x)) -> keeps part (for_each l body).
Proof.
  intros H. induction l as [|x l IH]; simpl.
  - apply keeps_ret.
  - apply keeps_bind; [apply H | intros _; exact IH].
Qed.

End Frame.

(** One step of a frame proof, chosen by the shape of the statement; the
    part must be one that the field update at hand leaves alone. *)
Ltac keeps_step :=
  lazymatch goal with
  | |- keeps _ (mret _) => apply keeps_ret
  | |- keeps _ (raise _) => apply keeps_raise
  | |- keeps _ (gets _) => apply keeps_gets
  | |- keeps _ (modify _) => apply keeps_modify; intros ?; reflexivity
  | |- keeps _ (emit _) => unfold emit
  | |- keeps _ (print _) => unfold print
  | |- keeps _ (for_each _ _) => apply keeps_for_each; intros ?
  | |- keeps _ (_ ≫= _) => apply keeps_bind; [| intros ?]
  | |- keeps _ (match ?x with _ => _ end) => destruct x
  | |- keeps _ (let _ := _ in _) => cbv zeta
  end.

Ltac keeps_steps := repeat keeps_step.

Lemma render_data_flow_keeps_files (comps : list component) :
  keeps files (render_data_flow comps).
Proof. unfold render_data_flow. keeps_steps. Qed.

Lemma bind_raises {A B : Type} (m : M A) (k : A -> M B) (s : state) (e : exn) :
  fst (m s) = Raise e -> (m ≫= k) s = (Raise e, snd (m s)).
Proof.
  intros H. unfold mbind, M_bind. destruct (m s) as [[a | e'] s1]; simpl in *; congruence.
Qed.

(** ** Report generation: the whole function *)

Ltac run_blocks Hflow :=
  unfold generate_report;
  do 6 (erewrite run_bind; [| reflexivity]);
  erewrite run_bind; [| apply render_header_emits];
  erewrite run_bind; [| apply render_executive_summary_emits];
  erewrite run_bind; [| apply render_architecture_overview_emits];
  erewrite run_bind; [| apply render_components_emits].

(** When no block raises, [generate_report] returns the lines of
    [report_lines] joined by line feeds, writes that text to [output_path],
    and leaves the final counters in its two local dictionaries. *)
Lemma generate_report_returns (now image_path output_path : string) (s : state)
                              (L : list string) :
  report_lines now image_path (components_data s) (stride_data s) = Return L ->
  generate_report now image_path output_path s
  = (Return (Str.join Str.newline L),
     set_files (insert output_path (Str.join Str.newline L))
       (set_lines (fun _ => L)
          (set_category_counts
             (fun _ => tally ∅ (map category_key
                                    (all_threats (get (stride_analysis (stride_data s)) []))))
             (set_severity_counts
                (fun _ => tally severity_counts_init
                            (map severity_key
                                 (all_threats (get (stride_analysis (stride_data s)) []))))
                s)))).
Proof.
  unfold report_lines. intros HL.
  pose proof (render_data_flow_runs (get (components (components_data s)) [])) as Hflow.
  destruct (data_flow_sections (get (components (components_data s)) [])) as [flow | e];
    [| discriminate].
  injection HL as <-.
  run_blocks Hflow.
  erewrite run_bind; [| apply Hflow].
  erewrite run_bind; [| apply render_stride_analysis_emits].
  erewrite run_bind; [| apply render_risk_matrix_run].
  erewrite run_bind; [| apply render_footer_emits].
  lines_outward. rewrite !set_lines_assigned.
  assert (E : ((((((([] ++ header_lines now image_path
                            (get (overall_risk_level (stride_data s)) "N/A"))
                   ++ executive_summary_lines (get (executive_summary (stride_data s)) "N/A"))
                  ++ architecture_overview_lines
                       (get (architecture_summary (components_data s)) "N/A"))
                 ++ components_lines (get (components (components_data s)) []))
                ++ "## 🔄 Fluxo de Dados" :: "" :: flow)
               ++ stride_lines (get (stride_analysis (stride_data s)) []))
              ++ risk_matrix_lines (get (stride_analysis (stride_data s)) []))
             ++ footer_lines
             = front_lines now image_path (components_data s) (stride_data s)
               ++ flow ++ back_lines (stride_data s)).
  { unfold front_lines, back_lines. rewrite app_nil_l, <- !app_assoc. reflexivity. }
  rewrite E. reflexivity.
Qed.

(** When the data-flow block raises, so does [generate_report], and no file
    is written. *)
Lemma generate_report_raises (now image_path output_path : string) (s : state) (e : exn) :
  report_lines now image_path (components_data s) (stride_data s) = Raise e ->
  fst (generate_report now image_path output_path s) = Raise e
  /\ files (snd (generate_report now image_path output_path s)) = files s.
Proof.
  unfold report_lines. intros HL.
  pose proof (render_data_flow_runs (get (components (components_data s)) [])) as Hflow.
  destruct (data_flow_sections (get (components (components_data s)) [])) as [flow | e'];
    [discriminate |].
  injection HL as ->.
  run_blocks Hflow.
  rewrite (bind_raises _ _ _ e) by apply Hflow.
  split; [reflexivity |].
  cbn [snd]. now rewrite render_data_flow_keeps_files.
Qed.

Lemma data_flow_sections_named (comps : list component) :
  Forall (fun comp => get (comp_connections comp) [] <> [] -> comp_name comp <> None) comps ->
  exists flow, data_flow_sections comps = Return flow.
Proof.
  induction 1 as [|comp comps Hc _ [after IH]]; simpl.
  - now exists [].
  - unfold data_flow_section. rewrite IH.
    destruct (get (comp_connections comp) []) as [|conn conns]; [now eexists |].
    destruct (comp_name comp) as [name |]; [now eexists |].
    now destruct Hc.
Qed.

Lemma data_flow_sections_nameless (comps : list component) :
  Exists (fun comp => get (comp_connections comp) [] <> [] /\ comp_name comp = None) comps ->
  data_flow_sections comps = Raise (KeyError "name").
Proof.
  induction 1 as [comp comps [Hconn Hname] | comp comps _ IH]; simpl.
  - unfold data_flow_section. rewrite Hname.
    now destruct (get (comp_connections comp) []).
  - rewrite IH. unfold data_flow_section.
    destruct (get (comp_connections comp) []); [reflexivity |].
    now destruct (comp_name comp).
Qed.

(** The text of a report that renders, laid out around its data-flow
    listing and its two summary tables. *)
Lemma generate_report_text (now image_path output_path : string) (s : state) :
  connected_named (components_data s) ->
  exists flow,
    data_flow_sections (get (components (components_data s)) []) = Return flow
    /\ fst (generate_report now image_path output_path s)
       = Return (assemble now image_path (components_data s) (stride_data s) flow
                   (severity_table (get (stride_analysis (stride_data s)) []))
                   (category_table (get (stride_analysis (stride_data s)) []))).
Proof.
  intros Hnamed. destruct (data_flow_sections_named _ Hnamed) as [flow Hflow].
  exists flow. split; [exact Hflow |].
  rewrite (generate_report_returns now image_path output_path s
             (front_lines now image_path (components_data s) (stride_data s)
              ++ flow ++ back_lines (stride_data s))).
  - unfold assemble, back_lines, risk_matrix_lines. cbv beta iota delta [fst].
    now rewrite <- !app_assoc.
  - unfold report_lines. now rewrite Hflow.
Qed.

Ltac unfold_blocks :=
  unfold generate_report, render_header, render_executive_summary,
    render_architecture_overview, render_components, render_data_flow,
    render_stride_analysis, render_risk_matrix, render_footer.

Lemma generate_report_keeps_components_data (now image_path output_path : string) :
  keeps components_data (generate_report now image_path output_path).
Proof. unfold_blocks. keeps_steps. Qed.

Lemma generate_report_keeps_stride_data (now image_path output_path : string) :
  keeps stride_data (generate_report now image_path output_path).
Proof. unfold_blocks. keeps_steps. Qed.

(** ** The claims *)

(** C8.  Neither call mutates a dictionary it was given: after
    [analyze_stride], returning or raising, [components_data] is what it was;
    after [generate_report], returning or raising, [components_data] and
    [stride_data] are what they were. *)
Theorem inputs_never_mutated :
  (forall (Doc : Type) (json_loads : string -> option Doc)
          (json_dumps : list component -> string)
          (llm_invoke : list HumanMessage -> string) (head mid tail : string) (s : state),
      components_data (snd (analyze_stride json_loads json_dumps llm_invoke head mid tail s))
      = components_data s)
  /\ (forall (now image_path output_path : string) (s : state),
        components_data (snd (generate_report now image_path output_path s))
        = components_data s
        /\ stride_data (snd (generate_report now image_path output_path s))
           = stride_data s).
Proof.
  split.
  - intros Doc json_loads json_dumps llm_invoke head mid tail.
    change (keeps components_data
              (analyze_stride json_loads json_dumps llm_invoke head mid tail)).
    unfold analyze_stride. keeps_steps.
  - intros now image_path output_path s. split.
    + apply generate_report_keeps_components_data.
    + apply generate_report_keeps_stride_data.
Qed.

Lemma join_cons_cons (sep p q : string) (rest : list string) :
  Str.join sep (p :: q :: rest) = (p ++ sep ++ Str.join sep (q :: rest))%string.
Proof. reflexivity. Qed.

(** The only line of the report that mentions [now] is its third. *)
Lemma report_lines_timestamp (image_path : string) (cd : arch_doc) (sd : threat_report)
                             (flow : list string) :
  exists (title next : string) (rest : list string),
    forall now,
      front_lines now image_path cd sd ++ flow ++ back_lines sd
      = title :: ""%string :: ("**Gerado em:** " ++ now ++ "  ")%string :: next :: rest.
Proof.
  unfold front_lines, header_lines. do 3 eexists. intros now.
  cbn [app]. reflexivity.
Qed.

(** C7.  Two runs of [generate_report] on the same documents and paths differ
    at most in the timestamp: either every run raises the same exception, or
    there are two fixed texts such that every run returns, and writes to
    [output_path], the first text, the "Gerado em" line made from that run's
    clock reading, and the second text. *)
Theorem report_deterministic_up_to_timestamp (image_path output_path : string) (s : state) :
  (exists e, forall now, fst (generate_report now image_path output_path s) = Raise e)
  \/ (exists before after : string,
        forall now,
          fst (generate_report now image_path output_path s)
          = Return (before ++ "**Gerado em:** " ++ now ++ "  " ++ after)%string
          /\ files (snd (generate_report now image_path output_path s)) !! output_path
             = Some (before ++ "**Gerado em:** " ++ now ++ "  " ++ after)%string).
Proof.
  destruct (data_flow_sections (get (components (components_data s)) [])) as [flow | e]
    eqn:Hflow.
  - right.
    destruct (report_lines_timestamp image_path (components_data s) (stride_data s) flow)
      as (title & next & rest & Hlines).
    exists (title ++ Str.newline ++ "" ++ Str.newline)%string,
           (Str.newline ++ Str.join Str.newline (next :: rest))%string.
    intros now.
    rewrite (generate_report_returns now image_path output_path s
               (front_lines now image_path (components_data s) (stride_data s)
                ++ flow ++ back_lines (stride_data s)))
      by (unfold report_lines; now rewrite Hflow).
    rewrite Hlines, !join_cons_cons.
    cbv beta iota delta [fst snd]. unfold set_files. cbn [files].
    rewrite lookup_insert_eq, !append_assoc. split; reflexivity.
  - left. exists e. intros now.
    apply generate_report_raises. unfold report_lines. now rewrite Hflow.
Qed.

(** C9.  [generate_report] raises [KeyError] for the key "name" as soon as
    some component has a non-empty connections list and no name.  That read is
    the only one without a default: when every component with connections has
    a name the report is returned, whichever other fields are missing, with
    the defaults standing in for them. *)
Theorem missing_name_is_the_only_failure (now image_path output_path : string) (s : state) :
  (Exists (fun comp => get (comp_connections comp) [] <> [] /\ comp_name comp = None)
          (get (components (components_data s)) []) ->
   fst (generate_report now image_path output_path s) = Raise (KeyError "name"))
  /\ (Forall (fun comp => get (comp_connections comp) [] <> [] -> comp_name comp <> None)
             (get (components (components_data s)) []) ->
      exists flow,
        data_flow_sections (get (components (components_data s)) []) = Return flow
        /\ fst (generate_report now image_path output_path s)
           = Return (assemble now image_path (components_data s) (stride_data s) flow
                       (severity_table (get (stride_analysis (stride_data s)) []))
                       (category_table (get (stride_analysis (stride_data s)) [])))).
Proof.
  split.
  - intros Hbad. apply generate_report_raises.
    unfold report_lines. now rewrite (data_flow_sections_nameless _ Hbad).
  - intros Hgood. exact (generate_report_text now image_path output_path s Hgood).
Qed.

(** Two documents with every field absent but the lists themselves: one
    nameless component with a connection, and one without connections. *)
Lemma missing_name_is_the_only_failure_witness :
  fst (generate_report "2024-01-01 00:00:00" "d.png" "r.md"
         (state_of
            {| components := Some [ nameless_component (Some [ blank_connection ]) ];
               architecture_summary := None |}
            blank_report))
  = Raise (KeyError "name")
  /\ fst (generate_report "2024-01-01 00:00:00" "d.png" "r.md"
            (state_of
               {| components := Some [ nameless_component None ];
                  architecture_summary := None |}
               blank_report))
     = Return
         (Str.join Str.newline
            [ "# 🛡️ Relatório de Modelagem de Ameaças STRIDE";
              "";
              "**Gerado em:** 2024-01-01 00:00:00  ";
              "**Diagrama de Origem:** `d.png`  ";
              "**Nível de Risco Geral:** ⚪ **N/A**";
              "";
              "---";
              "";
              "## 📋 Resumo Executivo";
              "";
              "N/A";
              "";
              "## 🏗️ Visão Geral da Arquitetura";
              "";
              "N/A";
              "";
              "## 🧩 Componentes Identificados";
              "";
              "| # | Componente | Tipo | Provedor | Descrição |";
              "|---|-----------|------|----------|-----------|";
              "| 1 | **N/A** | N/A | N/A | N/A |";
              "";
              "## 🔄 Fluxo de Dados";
              "";
              "---";
              "";
              "## 🔍 Análise de Ameaças STRIDE";
              "";
              "### 🔹 Desconhecido (Desconhecido)";
              "";
              "| Categoria | Ameaça | Severidade | Vulnerabilidades | Contramedidas |";
              "|-----------|--------|-----------|-------------------|----|";
              "| **N/A** | N/A | ⚪ N/A |  |  |";
              "";
              "### 🔹 Desconhecido (Desconhecido)";
              "";
              "_Nenhuma ameaça significativa identificada._";
              "";
              "---";
              "";
              "## 📊 Matriz de Resumo de Risco";
              "";
              "### Por Severidade";
              "";
              "| Severidade | Quantidade |";
              "|----------|-------|";
              "| 🔴 Critical | 0 |";
              "| 🟠 High | 0 |";
              "| 🟡 Medium | 0 |";
              "| 🟢 Low | 0 |";
              "";
              "### Por Categoria STRIDE";
              "";
              "| Categoria | Quantidade |";
              "|----------|-------|";
              "| Spoofing | 0 |";
              "| Tampering | 0 |";
              "| Repudiation | 0 |";
              "| Information Disclosure | 0 |";
              "| Denial of Service | 0 |";
              "| Elevation of Privilege | 0 |";
              "";
              "---";
              "";
              ("*Este relatório foi gerado automaticamente usando análise de arquitetura com IA "
                 ++ "e modelagem de ameaças STRIDE. Os achados devem ser revisados e validados por um "
                 ++ "profissional de segurança qualificado.*")%string;
              "" ]).
Proof.
  split.
  - apply (proj1 (missing_name_is_the_only_failure _ _ _ _)).
    apply Exists_cons_hd. split; [discriminate | reflexivity].
  - match goal with
    | |- fst (generate_report ?now ?img ?out ?s) = _ =>
        destruct (proj2 (missing_name_is_the_only_failure now img out s))
          as (flow & Hflow & ->)
    end.
    + constructor; [| constructor]. intros H. now destruct H.
    + cbv in Hflow. injection Hflow as <-. reflexivity.
Defined.

Lemma occurrences_recognised (label : string) (ts : list threat) :
  In label STRIDE_CATEGORIES ->
  occurrences label (map category_key ts)
  = count_category label (List.filter recognised ts).
Proof.
  intros Hin. unfold count_category.
  induction ts as [|t ts IH]; [reflexivity |].
  cbn [map]. rewrite occurrences_cons, IH. cbn [List.filter].
  unfold category_key, recognised.
  destruct (t_category t) as [cat |] eqn:Hcat; cbn [get].
  - destruct (String.eqb_spec label cat) as [<- | Hne].
    + assert (Hrec : existsb (String.eqb label) STRIDE_CATEGORIES = true).
      { apply existsb_exists. exists label. split; [exact Hin | apply String.eqb_refl]. }
      rewrite Hrec. cbn [List.filter]. rewrite bool_decide_eq_true_2 by exact Hcat.
      reflexivity.
    + destruct (existsb (String.eqb cat) STRIDE_CATEGORIES); [| reflexivity].
      cbn [List.filter]. rewrite bool_decide_eq_false_2 by congruence. reflexivity.
  - destruct (String.eqb_spec label "Outro") as [-> | _]; [| reflexivity].
    exfalso. unfold STRIDE_CATEGORIES in Hin. simpl in Hin.
    intuition discriminate.
Qed.

(** C1.  Let the report render.  If its threats carry, in order, the
    severities Critical, Critical and Low, the severity table reads
    Critical 2, High 0, Medium 0, Low 1.  And the six rows of the category
    table count the threats with a recognised category only, each row those
    carrying exactly its label: a threat whose category is none of the six
    labels is counted in no row. *)
Theorem severity_and_category_counting (now image_path output_path : string) (s : state) :
  connected_named (components_data s) ->
  exists flow,
    data_flow_sections (get (components (components_data s)) []) = Return flow
    /\ (map t_severity (all_threats (get (stride_analysis (stride_data s)) []))
        = [ Some "Critical"; Some "Critical"; Some "Low" ]%string ->
        fst (generate_report now image_path output_path s)
        = Return (assemble now image_path (components_data s) (stride_data s) flow
                    [ "### Por Severidade";
                      "";
                      "| Severidade | Quantidade |";
                      "|----------|-------|";
                      "| 🔴 Critical | 2 |";
                      "| 🟠 High | 0 |";
                      "| 🟡 Medium | 0 |";
                      "| 🟢 Low | 1 |";
                      "" ]
                    (category_table (get (stride_analysis (stride_data s)) []))))
    /\ fst (generate_report now image_path output_path s)
       = Return (assemble now image_path (components_data s) (stride_data s) flow
                   (severity_table (get (stride_analysis (stride_data s)) []))
                   ([ "### Por Categoria STRIDE";
                      "";
                      "| Categoria | Quantidade |";
                      "|----------|-------|" ]
                    ++ map (fun label =>
                              category_row label
                                (count_category label
                                   (List.filter recognised
                                      (all_threats
                                         (get (stride_analysis (stride_data s)) [])))))
                           STRIDE_CATEGORIES
                    ++ [ "" ])).
Proof.
  intros Hnamed.
  destruct (generate_report_text now image_path output_path s Hnamed) as (flow & Hflow & H).
  exists flow. split; [exact Hflow |]. rewrite H. split.
  - intros Hsev. do 2 f_equal. unfold severity_table, severity_key.
    rewrite <- (map_map t_severity (fun f => get f "Baixa")), Hsev. reflexivity.
  - do 2 f_equal. unfold category_table. do 2 f_equal.
    apply map_ext_in. intros label Hin. now rewrite occurrences_recognised.
Qed.

Lemma severity_and_category_counting_witness :
  fst (generate_report "2024-01-01 00:00:00" "d.png" "r.md"
         (state_of no_components three_threat_report))
  = Return (assemble "2024-01-01 00:00:00" "d.png" no_components three_threat_report []
              [ "### Por Severidade";
                "";
                "| Severidade | Quantidade |";
                "|----------|-------|";
                "| 🔴 Critical | 2 |";
                "| 🟠 High | 0 |";
                "| 🟡 Medium | 0 |";
                "| 🟢 Low | 1 |";
                "" ]
              [ "### Por Categoria STRIDE";
                "";
                "| Categoria | Quantidade |";
                "|----------|-------|";
                "| Spoofing | 1 |";
                "| Tampering | 0 |";
                "| Repudiation | 0 |";
                "| Information Disclosure | 0 |";
                "| Denial of Service | 0 |";
                "| Elevation of Privilege | 0 |";
                "" ]).
Proof.
  destruct (severity_and_category_counting "2024-01-01 00:00:00" "d.png" "r.md"
              (state_of no_components three_threat_report))
    as (flow & Hflow & H & _); [constructor |].
  cbv in Hflow. injection Hflow as <-. apply H. reflexivity.
Defined.

(** The counters [generate_report] leaves in [severity_counts]: each label is
    tallied under its own key. *)
Lemma generate_report_severity_counts (now image_path output_path label : string)
                                      (s : state) :
  connected_named (components_data s) ->
  get (severity_counts (snd (generate_report now image_path output_path s)) !! label) 0
  = get (severity_counts_init !! label) 0
    + occurrences label
        (map severity_key (all_threats (get (stride_analysis (stride_data s)) []))).
Proof.
  intros Hnamed. destruct (data_flow_sections_named _ Hnamed) as [flow Hflow].
  rewrite (generate_report_returns now image_path output_path s
             (front_lines now image_path (components_data s) (stride_data s)
              ++ flow ++ back_lines (stride_data s)))
    by (unfold report_lines; fold (connected_named (components_data s)); now rewrite Hflow).
  cbv beta iota delta [snd]. unfold set_files, set_lines, set_category_counts.
  cbn [severity_counts set_severity_counts]. apply tally_lookup.
Qed.

Lemma occurrences_severity (label : string) (ts : list threat) :
  label <> "Baixa"%string ->
  occurrences label (map severity_key ts) = count_severity label ts.
Proof.
  intros Hne. unfold count_severity.
  induction ts as [|t ts IH]; [reflexivity |].
  cbn [map List.filter]. rewrite occurrences_cons, IH. unfold severity_key.
  destruct (t_severity t) as [sev |] eqn:Hsev; cbn [get].
  - destruct (String.eqb_spec label sev) as [<- | Hd].
    + now rewrite bool_decide_eq_true_2.
    + rewrite bool_decide_eq_false_2 by congruence. reflexivity.
  - destruct (String.eqb_spec label "Baixa") as [-> | _]; [congruence |].
    now rewrite bool_decide_eq_false_2.
Qed.

Lemma occurrences_Baixa (ts : list threat) :
  occurrences "Baixa" (map severity_key ts)
  = List.length
      (List.filter
         (fun t => bool_decide (t_severity t = None \/ t_severity t = Some "Baixa"%string))
         ts).
Proof.
  induction ts as [|t ts IH]; [reflexivity |].
  cbn [map List.filter]. rewrite occurrences_cons, IH. unfold severity_key.
  destruct (t_severity t) as [sev |] eqn:Hsev; cbn [get].
  - destruct (String.eqb_spec "Baixa" sev) as [<- | Hd].
    + rewrite bool_decide_eq_true_2 by now right. reflexivity.
    + rewrite bool_decide_eq_false_2; [reflexivity |].
      intros [H | H]; congruence.
  - rewrite bool_decide_eq_true_2 by now left. reflexivity.
Qed.

Lemma Return_differs {A : Type} (a b : A) : a <> b -> Return a <> Return b.
Proof. intros H E. apply H. now injection E. Qed.

(** C2, as the spec words it, fails.  For a report whose single threat is
    labelled "Crítica" the table shows Critical 0, where merged vocabularies
    would show Critical 1. *)
Lemma vocabularies_not_merged :
  fst (generate_report "2024-01-01 00:00:00" "d.png" "r.md"
         (state_of no_components (single_threat_report "Crítica")))
  = Return (assemble "2024-01-01 00:00:00" "d.png" no_components
              (single_threat_report "Crítica") []
              [ "### Por Severidade";
                "";
                "| Severidade | Quantidade |";
                "|----------|-------|";
                "| 🔴 Critical | 0 |";
                "| 🟠 High | 0 |";
                "| 🟡 Medium | 0 |";
                "| 🟢 Low | 0 |";
                "" ]
              (category_table (get (stride_analysis (single_threat_report "Crítica")) [])))
  /\ fst (generate_report "2024-01-01 00:00:00" "d.png" "r.md"
            (state_of no_components (single_threat_report "Crítica")))
     <> Return (assemble "2024-01-01 00:00:00" "d.png" no_components
                  (single_threat_report "Crítica") []
                  (merged_severity_table
                     (get (stride_analysis (single_threat_report "Crítica")) []))
                  (category_table (get (stride_analysis (single_threat_report "Crítica")) [])))
  /\ fst (generate_report "2024-01-01 00:00:00" "d.png" "r.md"
            (state_of no_components (single_threat_report "Critical")))
     = Return (assemble "2024-01-01 00:00:00" "d.png" no_components
                 (single_threat_report "Critical") []
                 (merged_severity_table
                    (get (stride_analysis (single_threat_report "Crítica")) []))
                 (category_table (get (stride_analysis (single_threat_report "Critical")) []))).
Proof.
  split; [| split].
  - vm_compute. reflexivity.
  - vm_compute. apply Return_differs, String.eqb_neq. vm_compute. reflexivity.
  - vm_compute. reflexivity.
Qed.

(** C2, amended.  Severities are tallied per label, each threat under exactly
    the string it carries, and the two vocabularies are never added up: when
    the report renders, the row of each English label shows the number of
    threats whose severity is that very label, and after the call the counter
    of every label holds its initial value plus the number of threats counted
    under that label. *)
Theorem severity_tallied_per_label (now image_path output_path : string) (s : state) :
  connected_named (components_data s) ->
  exists flow,
    data_flow_sections (get (components (components_data s)) []) = Return flow
    /\ fst (generate_report now image_path output_path s)
       = Return (assemble now image_path (components_data s) (stride_data s) flow
                   [ "### Por Severidade";
                     "";
                     "| Severidade | Quantidade |";
                     "|----------|-------|";
                     severity_row "🔴" "Critical"
                       (count_severity "Critical"
                          (all_threats (get (stride_analysis (stride_data s)) [])));
                     severity_row "🟠" "High"
                       (count_severity "High"
                          (all_threats (get (stride_analysis (stride_data s)) [])));
                     severity_row "🟡" "Medium"
                       (count_severity "Medium"
                          (all_threats (get (stride_analysis (stride_data s)) [])));
                     severity_row "🟢" "Low"
                       (count_severity "Low"
                          (all_threats (get (stride_analysis (stride_data s)) [])));
                     "" ]
                   (category_table (get (stride_analysis (stride_data s)) [])))
    /\ forall label,
         get (severity_counts (snd (generate_report now image_path output_path s)) !! label) 0
         = get (severity_counts_init !! label) 0
           + occurrences label
               (map severity_key (all_threats (get (stride_analysis (stride_data s)) []))).
Proof.
  intros Hnamed.
  destruct (generate_report_text now image_path output_path s Hnamed) as (flow & Hflow & H).
  exists flow. split; [exact Hflow |]. split.
  - rewrite H. unfold severity_table. cbv zeta.
    now rewrite !occurrences_severity by discriminate.
  - intros label. now apply generate_report_severity_counts.
Qed.

Lemma severity_tallied_per_label_witness :
  get (severity_counts
         (snd (generate_report "2024-01-01 00:00:00" "d.png" "r.md"
                 (state_of no_components (single_threat_report "Crítica"))))
       !! "Crítica") 0
  = 1.
Proof.
  destruct (severity_tallied_per_label "2024-01-01 00:00:00" "d.png" "r.md"
              (state_of no_components (single_threat_report "Crítica")))
    as (flow & _ & _ & H); [constructor |].
  rewrite H. reflexivity.
Defined.

(** C10.  When the report renders: a threat without a severity is counted
    under "Baixa"; the threats carrying a Portuguese label are tallied under
    that label; no Portuguese label has an entry in [SEVERITY_EMOJI], every
    English label has one; and the severity table that is emitted consists of
    the four English rows and nothing else, so no Portuguese counter is ever
    shown. *)
Theorem portuguese_counters_never_shown (now image_path output_path : string) (s : state) :
  connected_named (components_data s) ->
  get (severity_counts (snd (generate_report now image_path output_path s)) !! "Baixa") 0
  = List.length
      (List.filter
         (fun t => bool_decide (t_severity t = None \/ t_severity t = Some "Baixa"%string))
         (all_threats (get (stride_analysis (stride_data s)) [])))
  /\ Forall (fun label =>
               get (severity_counts (snd (generate_report now image_path output_path s))
                    !! label) 0
               = count_severity label (all_threats (get (stride_analysis (stride_data s)) [])))
            [ "Crítica"; "Alta"; "Média" ]%string
  /\ Forall (fun label => get (SEVERITY_EMOJI !! label) "⚪" = "⚪"%string)
            [ "Crítica"; "Alta"; "Média"; "Baixa" ]%string
  /\ Forall (fun label => get (SEVERITY_EMOJI !! label) "⚪" <> "⚪"%string)
            [ "Critical"; "High"; "Medium"; "Low" ]%string
  /\ exists flow,
       data_flow_sections (get (components (components_data s)) []) = Return flow
       /\ fst (generate_report now image_path output_path s)
          = Return (assemble now image_path (components_data s) (stride_data s) flow
                      [ "### Por Severidade";
                        "";
                        "| Severidade | Quantidade |";
                        "|----------|-------|";
                        severity_row "🔴" "Critical"
                          (count_severity "Critical"
                             (all_threats (get (stride_analysis (stride_data s)) [])));
                        severity_row "🟠" "High"
                          (count_severity "High"
                             (all_threats (get (stride_analysis (stride_data s)) [])));
                        severity_row "🟡" "Medium"
                          (count_severity "Medium"
                             (all_threats (get (stride_analysis (stride_data s)) [])));
                        severity_row "🟢" "Low"
                          (count_severity "Low"
                             (all_threats (get (stride_analysis (stride_data s)) [])));
                        "" ]
                      (category_table (get (stride_analysis (stride_data s)) []))).
Proof.
  intros Hnamed.
  destruct severity_counts_init_portuguese as (Pc & Pa & Pm & Pb).
  split; [| split; [| split; [| split]]].
  - rewrite generate_report_severity_counts by exact Hnamed.
    rewrite Pb. apply occurrences_Baixa.
  - repeat constructor;
      rewrite generate_report_severity_counts by exact Hnamed;
      rewrite ?Pc, ?Pa, ?Pm; now apply occurrences_severity.
  - repeat constructor.
  - repeat constructor; discriminate.
  - destruct (generate_report_text now image_path output_path s Hnamed) as (flow & Hflow & H).
    exists flow. split; [exact Hflow |].
    rewrite H. unfold severity_table. cbv zeta.
    now rewrite !occurrences_severity by discriminate.
Qed.

Lemma portuguese_counters_never_shown_witness :
  get (severity_counts
         (snd (generate_report "2024-01-01 00:00:00" "d.png" "r.md"
                 (state_of no_components (single_threat_report "Baixa"))))
       !! "Baixa") 0
  = 1.
Proof.
  destruct (portuguese_counters_never_shown "2024-01-01 00:00:00" "d.png" "r.md"
              (state_of no_components (single_threat_report "Baixa")))
    as (H & _); [constructor |].
  rewrite H. reflexivity.
Defined.

(** C6.  Take a document with two components, of which [src] has exactly one
    connection and [dst] none, in either order, and a report of two entries
    with one Spoofing threat each.  The report then holds, after the component
    inventory: one data-flow section, that of [src]; two STRIDE tables of one
    row each; the severity table; and a category table that reads Spoofing 2
    and 0 for the five other categories. *)
Theorem two_component_scenario
    (now image_path output_path : string) (s : state)
    (src dst : component) (src_name : string) (link : connection)
    (e1 e2 : entry) (t1 t2 : threat) :
  (get (components (components_data s)) [] = [src; dst]
   \/ get (components (components_data s)) [] = [dst; src]) ->
  comp_name src = Some src_name ->
  get (comp_connections src) [] = [link] ->
  get (comp_connections dst) [] = [] ->
  get (stride_analysis (stride_data s)) [] = [e1; e2] ->
  get (threats e1) [] = [t1] ->
  get (threats e2) [] = [t2] ->
  t_category t1 = Some "Spoofing"%string ->
  t_category t2 = Some "Spoofing"%string ->
  fst (generate_report now image_path output_path s)
  = Return
      (Str.join Str.newline
         (front_lines now image_path (components_data s) (stride_data s)
          ++ [ ("### " ++ src_name)%string;
               connection_line link;
               "" ]
          ++ [ "---";
               "";
               "## 🔍 Análise de Ameaças STRIDE";
               "";
               ("### 🔹 " ++ get (component_name e1) "Desconhecido"
                  ++ " (" ++ get (component_type e1) "Desconhecido" ++ ")")%string;
               "";
               "| Categoria | Ameaça | Severidade | Vulnerabilidades | Contramedidas |";
               "|-----------|--------|-----------|-------------------|----|";
               threat_row t1;
               "";
               ("### 🔹 " ++ get (component_name e2) "Desconhecido"
                  ++ " (" ++ get (component_type e2) "Desconhecido" ++ ")")%string;
               "";
               "| Categoria | Ameaça | Severidade | Vulnerabilidades | Contramedidas |";
               "|-----------|--------|-----------|-------------------|----|";
               threat_row t2;
               "" ]
          ++ [ "---"; ""; "## 📊 Matriz de Resumo de Risco"; "" ]
          ++ severity_table [e1; e2]
          ++ [ "### Por Categoria STRIDE";
               "";
               "| Categoria | Quantidade |";
               "|----------|-------|";
               "| Spoofing | 2 |";
               "| Tampering | 0 |";
               "| Repudiation | 0 |";
               "| Information Disclosure | 0 |";
               "| Denial of Service | 0 |";
               "| Elevation of Privilege | 0 |";
               "" ]
          ++ footer_lines)).
Proof.
  intros Hcomps Hname Hsrc Hdst Hsa Ht1 Ht2 Hc1 Hc2.
  assert (Hflow : data_flow_sections (get (components (components_data s)) [])
                  = Return [ ("### " ++ src_name)%string; connection_line link; ""%string ]).
  { destruct Hcomps as [-> | ->]; cbn [data_flow_sections];
      unfold data_flow_section; now rewrite Hsrc, Hdst, Hname. }
  rewrite (generate_report_returns now image_path output_path s
             (front_lines now image_path (components_data s) (stride_data s)
              ++ [ ("### " ++ src_name)%string; connection_line link; ""%string ]
              ++ back_lines (stride_data s)))
    by (unfold report_lines; now rewrite Hflow).
  cbv beta iota delta [fst]. do 3 f_equal.
  unfold back_lines, stride_lines, risk_matrix_lines, category_table. rewrite Hsa.
  cbn [map concat]. unfold stride_section. rewrite Ht1, Ht2.
  unfold all_threats. cbn [map concat]. rewrite Ht1, Ht2. cbn [app map].
  unfold category_key. rewrite Hc1, Hc2.
  reflexivity.
Qed.

Lemma two_component_scenario_witness :
  fst (generate_report "2024-01-01 00:00:00" "d.png" "r.md" two_tier_state)
  = Return
      (assemble "2024-01-01 00:00:00" "d.png"
         (components_data two_tier_state) (stride_data two_tier_state)
         [ "### Web"; "- → **DB**: SQL"; "" ]
         [ "### Por Severidade";
           "";
           "| Severidade | Quantidade |";
           "|----------|-------|";
           "| 🔴 Critical | 0 |";
           "| 🟠 High | 0 |";
           "| 🟡 Medium | 0 |";
           "| 🟢 Low | 0 |";
           "" ]
         [ "### Por Categoria STRIDE";
           "";
           "| Categoria | Quantidade |";
           "|----------|-------|";
           "| Spoofing | 2 |";
           "| Tampering | 0 |";
           "| Repudiation | 0 |";
           "| Information Disclosure | 0 |";
           "| Denial of Service | 0 |";
           "| Elevation of Privilege | 0 |";
           "" ]).
Proof.
  rewrite (two_component_scenario "2024-01-01 00:00:00" "d.png" "r.md" two_tier_state
             two_tier_web two_tier_db "Web"
             {| conn_target := Some "DB"; conn_data_flow := Some "SQL" |}
             {| component_name := Some "Web"; component_type := Some "Servidor Web";
                threats := Some [ spoofing "Forged session" "Alta" ] |}
             {| component_name := Some "DB"; component_type := Some "Banco de Dados";
                threats := Some [ spoofing "Stolen credentials" "Crítica" ] |}
             (spoofing "Forged session" "Alta") (spoofing "Stolen credentials" "Crítica"));
    try reflexivity.
  left. reflexivity.
Defined.

(** * Further properties *)

(** ** The two model calls: edges of the reply handling *)

Lemma set_stdout_append (A B : list string) (s : state) :
  set_stdout (fun o => o ++ B) (set_stdout (fun o => o ++ A) s)
  = set_stdout (fun o => o ++ (A ++ B)) s.
Proof. unfold set_stdout; simpl. f_equal. now rewrite app_assoc. Qed.

(** [extract_components], result and state. *)
Lemma extract_components_run {Doc : Type} (json_loads : string -> option Doc)
    (llm_invoke : list HumanMessage -> string) (PROMPT image_b64 mime_type : string)
    (s : state) :
  extract_components json_loads llm_invoke PROMPT image_b64 mime_type s
  = (handle_reply json_loads "Could not parse LLM response as JSON:"
       (llm_invoke [extraction_message PROMPT image_b64 mime_type]),
     set_stdout
       (fun o => o ++ extraction_log json_loads
                        (llm_invoke [extraction_message PROMPT image_b64 mime_type]))
       s).
Proof.
  unfold extract_components, handle_reply, extraction_log, repair_attempted,
    strip_fences, parse_step.
  fold (extraction_message PROMPT image_b64 mime_type).
  erewrite run_bind; [| reflexivity]. cbv zeta.
  set (reply := Str.strip (llm_invoke [extraction_message PROMPT image_b64 mime_type])).
  assert (Hparse : forall raw s1,
            match json_loads raw with
            | Some doc => mret doc
            | None =>
                print "[WARN] LLM response was not valid JSON. Attempting repair …";;
                (if negb (Str.find "{" raw =? -1)%Z
                    && (Str.rfind "}" raw + 1 >? Str.find "{" raw)%Z
                 then match json_loads (Str.slice raw (Str.find "{" raw)
                                          (Str.rfind "}" raw + 1)) with
                      | Some doc => mret doc
                      | None => raise JSONDecodeError
                      end
                 else raise (ValueError ("Could not parse LLM response as JSON:"
                                           ++ Str.newline ++ raw)))
            end s1
            = (match json_loads raw with
               | Some doc => Return doc
               | None =>
                   if negb (Str.find "{" raw =? -1)%Z
                      && (Str.rfind "}" raw + 1 >? Str.find "{" raw)%Z
                   then match json_loads (Str.slice raw (Str.find "{" raw)
                                            (Str.rfind "}" raw + 1)) with
                        | Some doc => Return doc
                        | None => Raise JSONDecodeError
                        end
                   else Raise (ValueError ("Could not parse LLM response as JSON:"
                                             ++ Str.newline ++ raw))
               end,
               set_stdout
                 (fun o => o ++ match json_loads raw with
                                | Some _ => []
                                | None => [ "[WARN] LLM response was not valid JSON. Attempting repair …"%string ]
                                end) s1)).
  { intros raw s1. destruct (json_loads raw) as [doc |].
    - unfold mret, M_ret. now destruct s1; unfold set_stdout; simpl; rewrite app_nil_r.
    - erewrite run_bind; [| reflexivity].
      destruct (negb (Str.find "{" raw =? -1)%Z
                && (Str.rfind "}" raw + 1 >? Str.find "{" raw)%Z); [| reflexivity].
      now destruct (json_loads (Str.slice raw (Str.find "{" raw) (Str.rfind "}" raw + 1))). }
  destruct (Str.startswith reply "```").
  - destruct (snd (Str.split_first_line reply)) as [rest |].
    + erewrite run_bind; [| reflexivity]. rewrite Hparse, set_stdout_append.
      now destruct (json_loads _).
    + reflexivity.
  - erewrite run_bind; [| reflexivity]. rewrite Hparse, set_stdout_append.
    now destruct (json_loads reply).
Qed.

(** [analyze_stride], result and state. *)
Lemma analyze_stride_run {Doc : Type} (json_loads : string -> option Doc)
    (json_dumps : list component -> string)
    (llm_invoke : list HumanMessage -> string) (HEAD MID TAIL : string) (s : state) :
  analyze_stride json_loads json_dumps llm_invoke HEAD MID TAIL s
  = (handle_reply json_loads "Could not parse STRIDE response as JSON:"
       (llm_invoke [analysis_message json_dumps HEAD MID TAIL (components_data s)]),
     set_stdout (fun o => o ++ [ "[LLM] Performing STRIDE threat analysis …"%string ]) s).
Proof.
  unfold analyze_stride, handle_reply, strip_fences, parse_step, analysis_message.
  run_monad.
  repeat (case_match; simpl; try reflexivity; try congruence).
Qed.

Lemma split_first_line_whole (s : string) :
  ~ occurs Str.LF s -> snd (Str.split_first_line s) = None.
Proof.
  induction s as [|x s IH]; simpl; intros H; [reflexivity |].
  rewrite occurs_cons in H. destruct (Ascii.eqb_spec x Str.LF) as [-> | _]; [tauto |].
  destruct (Str.split_first_line s) as [h t]. simpl in *. tauto.
Qed.

Lemma rfind_char_bound (c : ascii) (s : string) (i : nat) :
  Str.rfind_char c s = Some i -> i < String.length s.
Proof.
  revert i. induction s as [|x s IH]; simpl; intros i H; [discriminate |].
  destruct (Str.rfind_char c s) as [j |].
  - injection H as <-. specialize (IH j eq_refl). lia.
  - destruct (Ascii.eqb x c); [injection H as <-; lia | discriminate].
Qed.

Lemma rfind_char_before (c : ascii) (a b : string) :
  ~ occurs c b -> Str.rfind_char c (a ++ b) = Str.rfind_char c a.
Proof.
  intros H. induction a as [|x a IH]; simpl.
  - now apply rfind_char_None.
  - now rewrite IH.
Qed.

Section ReplyEdges.

Context {Doc : Type}.
Variable json_loads : string -> option Doc.
Variable json_dumps : list component -> string.
Variable PROMPT : string.
Variables HEAD MID TAIL : string.

(** A reply whose stripped text opens with a fence and holds no line feed
    makes both calls raise [IndexError], before any parsing: the first line
    is all there is, and the code takes what follows it. *)
Theorem single_line_fence_raises_IndexError
    (response image_b64 mime_type : string) (s : state) :
  Str.startswith (Str.strip response) "```" = true ->
  ~ occurs Str.LF (Str.strip response) ->
  fst (extract_components json_loads (fun _ => response) PROMPT image_b64 mime_type s)
  = Raise IndexError
  /\ fst (analyze_stride json_loads json_dumps (fun _ => response) HEAD MID TAIL s)
     = Raise IndexError.
Proof.
  intros Hfence Hline.
  rewrite extract_components_outcome, analyze_stride_outcome.
  unfold handle_reply, strip_fences.
  now rewrite Hfence, (split_first_line_whole _ Hline).
Qed.

(** The closing fence is optional: after an opening fence line, a rest that
    does not end in a fence reaches the parser stripped of whitespace and
    otherwise whole. *)
Theorem unclosed_fence_tolerated
    (response info rest image_b64 mime_type : string) (s : state) :
  Str.strip response = ("```" ++ info ++ Str.newline ++ rest)%string ->
  ~ occurs Str.LF info ->
  Str.endswith rest "```" = false ->
  strip_fences response = Return (Str.strip rest)
  /\ fst (extract_components json_loads (fun _ => response) PROMPT image_b64 mime_type s)
     = parse_step json_loads "Could not parse LLM response as JSON:" (Str.strip rest)
  /\ fst (analyze_stride json_loads json_dumps (fun _ => response) HEAD MID TAIL s)
     = parse_step json_loads "Could not parse STRIDE response as JSON:" (Str.strip rest).
Proof.
  intros Hstrip Hinfo Hopen.
  assert (E : strip_fences response = Return (Str.strip rest)).
  { unfold strip_fences. rewrite Hstrip, startswith_fence.
    replace ("```" ++ info ++ Str.newline ++ rest)%string
      with (("```" ++ info) ++ String Str.LF rest)%string
      by (now rewrite !append_assoc).
    rewrite split_first_line_at.
    - lazy beta iota delta [snd]. now rewrite Hopen.
    - rewrite occurs_append. intros [H | H]; [| tauto].
      apply find_char_None in H; [exact H | reflexivity]. }
  rewrite extract_components_outcome, analyze_stride_outcome.
  unfold handle_reply. now rewrite E.
Qed.

(** Braces in the wrong order are not repaired: when the strict parse
    rejects the text and no closing brace follows the first opening brace,
    both calls raise the [ValueError] that quotes the text. *)
Theorem misordered_braces_raise_ValueError
    (response raw pre post image_b64 mime_type : string) (s : state) :
  strip_fences response = Return raw ->
  json_loads raw = None ->
  raw = (pre ++ "{" ++ post)%string ->
  ~ occurs "{" pre -> ~ occurs "}" post ->
  fst (extract_components json_loads (fun _ => response) PROMPT image_b64 mime_type s)
  = Raise (ValueError ("Could not parse LLM response as JSON:" ++ Str.newline ++ raw))
  /\ fst (analyze_stride json_loads json_dumps (fun _ => response) HEAD MID TAIL s)
     = Raise (ValueError ("Could not parse STRIDE response as JSON:" ++ Str.newline ++ raw)).
Proof.
  intros Hraw Hrej E Hpre Hpost.
  rewrite extract_components_outcome, analyze_stride_outcome.
  unfold handle_reply. rewrite Hraw. unfold parse_step. rewrite Hrej.
  assert (Hfind : Str.find "{" raw = Z.of_nat (String.length pre)).
  { subst raw. unfold Str.find.
    change ("{" ++ post)%string with (String "{" post).
    now rewrite (find_char_first "{" pre post Hpre). }
  assert (Hrfind : (Str.rfind "}" raw + 1 <= Z.of_nat (String.length pre))%Z).
  { subst raw. unfold Str.rfind.
    rewrite rfind_char_before.
    - destruct (Str.rfind_char "}" pre) as [i |] eqn:Hi; [| lia].
      apply rfind_char_bound in Hi. lia.
    - change ("{" ++ post)%string with (String "{" post).
      rewrite occurs_cons. intros [H | H]; [discriminate | tauto]. }
  rewrite Hfind.
  destruct (Z.gtb_spec (Str.rfind "}" raw + 1) (Z.of_nat (String.length pre))) as [H | _];
    [lia |].
  now rewrite andb_false_r.
Qed.

(** When the text from the first opening to the last closing brace is itself
    rejected, the second [JSONDecodeError] is what both calls raise; the
    [ValueError] with its message is not. *)
Theorem unparsable_span_raises_JSONDecodeError
    (response raw pre mid post image_b64 mime_type : string) (s : state) :
  strip_fences response = Return raw ->
  json_loads raw = None ->
  raw = (pre ++ "{" ++ mid ++ "}" ++ post)%string ->
  ~ occurs "{" pre -> ~ occurs "}" post ->
  json_loads ("{" ++ mid ++ "}") = None ->
  fst (extract_components json_loads (fun _ => response) PROMPT image_b64 mime_type s)
  = Raise JSONDecodeError
  /\ fst (analyze_stride json_loads json_dumps (fun _ => response) HEAD MID TAIL s)
     = Raise JSONDecodeError.
Proof.
  intros Hraw Hrej E Hpre Hpost Hspan.
  rewrite extract_components_outcome, analyze_stride_outcome.
  unfold handle_reply. rewrite Hraw.
  now rewrite !(parse_step_repairs _ _ raw pre mid post Hrej E Hpre Hpost), Hspan.
Qed.

(** Neither call changes anything but the standard output.
    [extract_components] prints its progress line, followed by the warning
    exactly when the strict parse was tried and rejected the text;
    [analyze_stride] prints its progress line and never a warning. *)
Theorem model_calls_only_print
    (llm_invoke : list HumanMessage -> string) (image_b64 mime_type : string) (s : state) :
  snd (extract_components json_loads llm_invoke PROMPT image_b64 mime_type s)
  = set_stdout
      (fun o => o ++ "[LLM] Extracting components from the diagram …"%string
                  :: (if repair_attempted json_loads
                           (llm_invoke [extraction_message PROMPT image_b64 mime_type])
                      then [ "[WARN] LLM response was not valid JSON. Attempting repair …"%string ]
                      else []))
      s
  /\ snd (analyze_stride json_loads json_dumps llm_invoke HEAD MID TAIL s)
     = set_stdout (fun o => o ++ [ "[LLM] Performing STRIDE threat analysis …"%string ]) s.
Proof. now rewrite extract_components_run, analyze_stride_run. Qed.

End ReplyEdges.

Lemma single_line_fence_raises_IndexError_witness :
  fst (extract_components loads_empty_object (fun _ => "```{}```") "" "" "" empty_state)
  = Raise IndexError
  /\ fst (analyze_stride loads_empty_object (fun _ => "") (fun _ => "```{}```")
            "" "" "" empty_state)
     = Raise IndexError.
Proof.
  apply (single_line_fence_raises_IndexError
           loads_empty_object (fun _ => ""%string) "" "" "" "" "```{}```" "" "" empty_state).
  - reflexivity.
  - apply find_char_None. reflexivity.
Defined.

Lemma unclosed_fence_tolerated_witness :
  fst (extract_components loads_empty_object
         (fun _ => ("```json" ++ Str.newline ++ "{}" ++ Str.newline)%string)
         "" "" "" empty_state)
  = Return 0.
Proof.
  destruct (unclosed_fence_tolerated
              loads_empty_object (fun _ => ""%string) "" "" "" ""
              ("```json" ++ Str.newline ++ "{}" ++ Str.newline)
              "json" "{}" "" "" empty_state)
    as (_ & H & _).
  - reflexivity.
  - apply find_char_None. reflexivity.
  - reflexivity.
  - rewrite H. reflexivity.
Defined.

Lemma misordered_braces_raise_ValueError_witness :
  fst (extract_components loads_empty_object (fun _ => "} then {") "" "" "" empty_state)
  = Raise (ValueError ("Could not parse LLM response as JSON:" ++ Str.newline ++ "} then {")).
Proof.
  apply (misordered_braces_raise_ValueError
           loads_empty_object (fun _ => ""%string) "" "" "" ""
           "} then {" "} then {" "} then " "" "" "" empty_state).
  - reflexivity.
  - reflexivity.
  - reflexivity.
  - apply find_char_None. reflexivity.
  - apply find_char_None. reflexivity.
Defined.

Lemma unparsable_span_raises_JSONDecodeError_witness :
  fst (extract_components loads_empty_object (fun _ => "see {oops} here") "" "" "" empty_state)
  = Raise JSONDecodeError.
Proof.
  apply (unparsable_span_raises_JSONDecodeError
           loads_empty_object (fun _ => ""%string) "" "" "" ""
           "see {oops} here" "see {oops} here" "see " "oops" " here" "" "" empty_state).
  - reflexivity.
  - reflexivity.
  - reflexivity.
  - apply find_char_None. reflexivity.
  - apply find_char_None. reflexivity.
  - reflexivity.
Defined.

(** ** Image helpers: what the loader can and cannot return *)

Lemma mime_map_values (ext mime : string) :
  mime_map !! ext = Some mime ->
  mime ∈ [ "image/png"; "image/jpeg"; "image/gif"; "image/webp"; "image/bmp" ]%string.
Proof.
  unfold mime_map. rewrite !lookup_insert, lookup_empty.
  intros E. repeat case_decide; try discriminate; injection E as <-; set_solver.
Qed.

(** Whatever the path, the MIME type returned is one of five. *)
Theorem mime_type_is_known (fs : gmap string (list Byte.byte))
                           (image_path data mime_type : string) :
  load_image_as_base64 fs image_path = Return (data, mime_type) ->
  mime_type ∈ [ "image/png"; "image/jpeg"; "image/gif"; "image/webp"; "image/bmp" ]%string.
Proof.
  unfold load_image_as_base64. destruct (fs !! image_path) as [content |]; [| discriminate].
  intros H. injection H as _ <-.
  destruct (mime_map !! lower (PurePath.suffix image_path)) as [mime |] eqn:E; cbn [get].
  - exact (mime_map_values _ _ E).
  - set_solver.
Qed.

Lemma mime_type_is_known_witness :
  ("image/png" : string)
    ∈ [ "image/png"; "image/jpeg"; "image/gif"; "image/webp"; "image/bmp" ]%string.
Proof.
  apply (mime_type_is_known {[ "notes.txt" := list_byte_of_string "hi" ]} "notes.txt" "aGk=").
  reflexivity.
Defined.

Lemma standard_b64encode_length_upto (n : nat) (data : list Byte.byte) :
  List.length data < n ->
  String.length (Base64.standard_b64encode data) = 4 * ((List.length data + 2) / 3).
Proof.
  revert data. induction n as [|n IH]; intros data Hlen; [lia |].
  destruct data as [|a [|b [|c rest]]]; try reflexivity.
  cbn [Base64.standard_b64encode]. rewrite length_append.
  rewrite IH by (cbn [List.length] in Hlen; lia).
  unfold Base64.quad. cbn [String.length List.length].
  replace (S (S (S (List.length rest))) + 2) with (List.length rest + 2 + 1 * 3) by lia.
  rewrite Nat.div_add by lia. lia.
Qed.

(** The text returned for a file has four characters for every three bytes
    of the file, the last group padded: its length is a multiple of four. *)
Theorem standard_b64encode_length (fs : gmap string (list Byte.byte))
                                  (image_path : string) (content : list Byte.byte) :
  fs !! image_path = Some content ->
  exists data mime_type,
    load_image_as_base64 fs image_path = Return (data, mime_type)
    /\ String.length data = 4 * ((List.length content + 2) / 3).
Proof.
  intros H. unfold load_image_as_base64. rewrite H. do 2 eexists. split; [reflexivity |].
  apply (standard_b64encode_length_upto (S (List.length content))). lia.
Qed.

Lemma standard_b64encode_length_witness :
  exists data mime_type,
    load_image_as_base64 {[ "a.gif" := list_byte_of_string "GIF89a!" ]} "a.gif"
    = Return (data, mime_type)
    /\ String.length data = 12.
Proof.
  apply (standard_b64encode_length {[ "a.gif" := list_byte_of_string "GIF89a!" ]} "a.gif"
           (list_byte_of_string "GIF89a!")).
  reflexivity.
Defined.

Lemma split_slash_plain (cur a : string) :
  ~ occurs "/" a -> PurePath.split_slash cur a = [ (Str.rev cur ++ a)%string ].
Proof.
  revert cur. induction a as [|x a IH]; intros cur H; cbn [PurePath.split_slash].
  - now rewrite append_nil_r.
  - rewrite occurs_cons in H. destruct (Ascii.eqb_spec x "/") as [-> | _]; [tauto |].
    rewrite IH by tauto. cbn [Str.rev]. now rewrite append_assoc.
Qed.

Lemma split_slash_nonempty (cur s : string) : PurePath.split_slash cur s <> [].
Proof.
  revert cur. induction s as [|x s IH]; intros cur; cbn [PurePath.split_slash].
  - discriminate.
  - destruct (Ascii.eqb x "/"); [discriminate | apply IH].
Qed.

Lemma last_split_slash (cur dir name d : string) :
  ~ occurs "/" name ->
  List.last (PurePath.split_slash cur (dir ++ "/" ++ name)) d = name.
Proof.
  intros H. revert cur. induction dir as [|x dir IH]; intros cur.
  - change ("" ++ "/" ++ name)%string with (String "/" name).
    cbn [PurePath.split_slash]. rewrite Ascii.eqb_refl.
    now rewrite split_slash_plain.
  - change (String x dir ++ "/" ++ name)%string with (String x (dir ++ "/" ++ name)).
    cbn [PurePath.split_slash]. destruct (Ascii.eqb x "/"); [| apply IH].
    specialize (IH ""%string).
    pose proof (split_slash_nonempty "" (dir ++ "/" ++ name)) as Hne.
    destruct (PurePath.split_slash "" (dir ++ "/" ++ name)); [contradiction | exact IH].
Qed.

Lemma last_filter {A : Type} (f : A -> bool) (l : list A) (d : A) :
  l <> [] -> f (List.last l d) = true -> List.last (List.filter f l) d = List.last l d.
Proof.
  intros Hne. destruct (List.exists_last Hne) as (l' & z & ->).
  rewrite List.last_last. intros Hz.
  rewrite List.filter_app. cbn [List.filter]. rewrite Hz. apply List.last_last.
Qed.

(** The name and the suffix of a path that ends in an ordinary file name. *)
Lemma name_of_file (prefix file : string) :
  prefix = ""%string \/ (exists dir, prefix = (dir ++ "/")%string) ->
  ~ occurs "/" file ->
  file <> ""%string -> file <> "."%string ->
  PurePath.name (prefix ++ file) = file.
Proof.
  intros Hprefix Hfile Hne Hdot. unfold PurePath.name, PurePath.parts.
  assert (Hlast : List.last (PurePath.split_slash "" (prefix ++ file)) ""%string = file).
  { destruct Hprefix as [-> | [dir ->]].
    - now rewrite split_slash_plain.
    - rewrite append_assoc. now apply last_split_slash. }
  rewrite last_filter, Hlast; [reflexivity | apply split_slash_nonempty |].
  rewrite Hlast.
  apply String.eqb_neq in Hne, Hdot. now rewrite Hne, Hdot.
Qed.

Lemma suffix_of_file (prefix stem ext : string) :
  prefix = ""%string \/ (exists dir, prefix = (dir ++ "/")%string) ->
  stem <> ""%string -> ext <> ""%string ->
  ~ occurs "/" stem -> ~ occurs "/" ext -> ~ occurs "." ext ->
  PurePath.suffix (prefix ++ stem ++ "." ++ ext) = ("." ++ ext)%string.
Proof.
  intros Hprefix Hstem Hext Hs1 Hs2 Hdot.
  unfold PurePath.suffix.
  rewrite (name_of_file prefix (stem ++ "." ++ ext) Hprefix).
  - change ("." ++ ext)%string with (String "." ext).
    unfold Str.rfind. rewrite (rfind_char_last "." stem ext Hdot).
    rewrite length_append. cbn [String.length].
    assert (0 < String.length stem) by (destruct stem; [congruence | cbn; lia]).
    assert (0 < String.length ext) by (destruct ext; [congruence | cbn; lia]).
    destruct (Z.ltb_spec 0 (Z.of_nat (String.length stem))) as [_ | ?]; [| lia].
    destruct (Z.ltb_spec (Z.of_nat (String.length stem))
                (Z.of_nat (String.length stem + S (String.length ext)) - 1)) as [_ | ?];
      [| lia].
    cbn [andb]. unfold Str.slice. rewrite Nat2Z.id.
    replace (Z.to_nat (Z.of_nat (String.length stem + S (String.length ext))
                       - Z.of_nat (String.length stem)))
      with (String.length (String "." ext)) by (cbn [String.length]; lia).
    rewrite substring_skip.
    rewrite <- (append_nil_r (String "." ext)) at 2. apply substring_whole.
  - rewrite !occurs_append, occurs_cons.
    intros [H | [[H | H] | H]];
      [tauto | discriminate | now apply occurs_nil in H | tauto].
  - destruct stem; [congruence | simpl; discriminate].
  - destruct stem as [|x stem]; [congruence |].
    simpl. intros E. injection E as _ E. destruct stem; simpl in E; discriminate.
Qed.

(** For a path that ends in a file name of the form stem.ext, the text after
    the last dot decides the MIME type, whatever its letter case and whatever
    directories precede the name. *)
Theorem extension_decides_mime (fs : gmap string (list Byte.byte))
                               (prefix stem ext : string) (content : list Byte.byte) :
  fs !! (prefix ++ stem ++ "." ++ ext)%string = Some content ->
  prefix = ""%string \/ (exists dir, prefix = (dir ++ "/")%string) ->
  stem <> ""%string -> ext <> ""%string ->
  ~ occurs "/" stem -> ~ occurs "/" ext -> ~ occurs "." ext ->
  load_image_as_base64 fs (prefix ++ stem ++ "." ++ ext)
  = Return (Base64.standard_b64encode content,
            get (mime_map !! ("." ++ lower ext)%string) "image/png").
Proof.
  intros Hfile Hprefix Hstem Hext Hs1 Hs2 Hdot.
  unfold load_image_as_base64. rewrite Hfile.
  now rewrite (suffix_of_file prefix stem ext).
Qed.

Lemma extension_decides_mime_witness :
  load_image_as_base64 {[ "shots/v1.2/Diagram.final.WebP" := list_byte_of_string "RIFF" ]}
                       "shots/v1.2/Diagram.final.WebP"
  = Return ("UklGRg==", "image/webp").
Proof.
  apply (extension_decides_mime
           {[ "shots/v1.2/Diagram.final.WebP" := list_byte_of_string "RIFF" ]}
           "shots/v1.2/" "Diagram.final" "WebP" (list_byte_of_string "RIFF")).
  - reflexivity.
  - right. now exists "shots/v1.2"%string.
  - discriminate.
  - discriminate.
  - apply find_char_None. reflexivity.
  - apply find_char_None. reflexivity.
  - apply find_char_None. reflexivity.
Defined.

(** ** Report generation: the file, the counters and stale state *)




(** When [generate_report] returns, the file store differs from the one it
    found in one place: [output_path] now holds the returned text, replacing
    what was there.  The standard output is untouched. *)
Theorem successful_render_writes_the_text
    (now image_path output_path text : string) (s : state) :
  fst (generate_report now image_path output_path s) = Return text ->
  files (snd (generate_report now image_path output_path s))
  = <[output_path := text]> (files s)
  /\ stdout (snd (generate_report now image_path output_path s)) = stdout s.
Proof.
  destruct (report_lines now image_path (components_data s) (stride_data s)) as [L | e]
    eqn:Hlines.
  - rewrite (generate_report_returns _ _ _ _ L Hlines).
    cbv beta iota delta [fst snd]. intros H. injection H as <-. now split.
  - rewrite (proj1 (generate_report_raises now image_path output_path s e Hlines)).
    discriminate.
Qed.

Lemma successful_render_writes_the_text_witness :
  files (snd (generate_report "2024-01-01 00:00:00" "d.png" "r.md"
                (state_of no_components (single_threat_report "Alta"))))
  !! "r.md"
  = Some (assemble "2024-01-01 00:00:00" "d.png" no_components
            (single_threat_report "Alta") []
            (severity_table (get (stride_analysis (single_threat_report "Alta")) []))
            (category_table (get (stride_analysis (single_threat_report "Alta")) []))).
Proof.
  match goal with
  | |- files (snd (generate_report ?now ?img ?out ?s)) !! _ = Some ?t =>
      destruct (successful_render_writes_the_text now img out t s) as [-> _]
  end.
  - vm_compute. reflexivity.
  - apply lookup_insert_eq.
Defined.



(** Rendering twice in a row, at one clock reading, gives what rendering once
    gives: the same text or the same exception, and the same files. *)
Theorem render_twice_is_render_once (now image_path output_path : string) (s : state) :
  fst ((generate_report now image_path output_path;;
        generate_report now image_path output_path) s)
  = fst (generate_report now image_path output_path s)
  /\ files (snd ((generate_report now image_path output_path;;
                  generate_report now image_path output_path) s))
     = files (snd (generate_report now image_path output_path s)).
Proof.
  destruct (report_lines now image_path (components_data s) (stride_data s)) as [L | e]
    eqn:Hlines.
  - erewrite run_bind; [| apply (generate_report_returns _ _ _ _ L Hlines)].
    rewrite (generate_report_returns _ _ _ s L Hlines).
    erewrite generate_report_returns; [| exact Hlines].
    cbv beta iota delta [fst snd]. split; [reflexivity |].
    unfold set_files. cbn [files]. apply insert_insert_eq.
  - rewrite (bind_raises _ _ _ e)
      by apply (generate_report_raises now image_path output_path s e Hlines).
    split; [| reflexivity].
    symmetry. apply (generate_report_raises now image_path output_path s e Hlines).
Qed.

Lemma total_count_bump (key : string) (m : gmap string nat) :
  total_count (<[key := get (m !! key) 0 + 1]> m) = S (total_count m).
Proof.
  unfold total_count.
  assert (Hcomm : forall (m' : gmap string nat) (j1 j2 : string) (z1 z2 y : nat),
             j1 <> j2 -> m' !! j1 = Some z1 -> m' !! j2 = Some z2 ->
             z1 + (z2 + y) = z2 + (z1 + y)) by (intros; lia).
  destruct (m !! key) as [n |] eqn:Hkey; cbn [get].
  - rewrite <- (insert_delete_eq m key (n + 1)).
    rewrite map_fold_insert_L; [| now apply Hcomm | apply lookup_delete_eq].
    rewrite <- (insert_delete_id m key n Hkey) at 2.
    rewrite map_fold_insert_L; [lia | now apply Hcomm | apply lookup_delete_eq].
  - rewrite map_fold_insert_L; [lia | now apply Hcomm | exact Hkey].
Qed.

(** Counting loses nothing: the counters grow by one for every key. *)
Lemma total_count_tally (keys : list string) (m : gmap string nat) :
  total_count (tally m keys) = total_count m + List.length keys.
Proof.
  revert m. induction keys as [|key keys IH]; intros m; [cbn; lia |].
  change (tally m (key :: keys))
    with (tally (<[key := get (m !! key) 0 + 1]> m) keys).
  rewrite IH, total_count_bump. cbn [List.length]. lia.
Qed.

Lemma total_count_init : total_count severity_counts_init = 0.
Proof. reflexivity. Qed.

Lemma count_threats_all (sa : list entry) :
  count_threats sa = List.length (all_threats sa).
Proof.
  unfold count_threats, all_threats.
  induction sa as [|e sa IH]; [reflexivity |].
  cbn [map concat list_sum]. rewrite length_app. now rewrite <- IH.
Qed.

(** Every threat is tallied exactly once in each dictionary, whatever its
    labels: after a report that renders, the counters of [severity_counts]
    add up to the number of threats, and so do those of [category_counts].
    It is the number [main] prints as identified. *)
Theorem every_threat_is_tallied (now image_path output_path : string) (s : state) :
  connected_named (components_data s) ->
  total_count (severity_counts (snd (generate_report now image_path output_path s)))
  = count_threats (get (stride_analysis (stride_data s)) [])
  /\ total_count (category_counts (snd (generate_report now image_path output_path s)))
     = count_threats (get (stride_analysis (stride_data s)) []).
Proof.
  intros Hnamed. destruct (data_flow_sections_named _ Hnamed) as [flow Hflow].
  rewrite (generate_report_returns now image_path output_path s
             (front_lines now image_path (components_data s) (stride_data s)
              ++ flow ++ back_lines (stride_data s)))
    by (unfold report_lines; fold (connected_named (components_data s)); now rewrite Hflow).
  cbv beta iota delta [snd]. unfold set_files, set_lines, set_category_counts.
  cbn [severity_counts category_counts set_severity_counts].
  rewrite !total_count_tally, total_count_init, !length_map, count_threats_all.
  split; reflexivity.
Qed.

Lemma every_threat_is_tallied_witness :
  total_count
    (severity_counts
       (snd (generate_report "2024-01-01 00:00:00" "d.png" "r.md"
               (state_of no_components three_threat_report))))
  = 3.
Proof.
  destruct (every_threat_is_tallied "2024-01-01 00:00:00" "d.png" "r.md"
              (state_of no_components three_threat_report))
    as [-> _]; [constructor | reflexivity].
Defined.

Lemma list_sum_map_add {A : Type} (f g : A -> nat) (l : list A) :
  list_sum (map (fun x => f x + g x) l) = list_sum (map f l) + list_sum (map g l).
Proof. unfold list_sum. induction l as [|x l IH]; simpl; [reflexivity | lia]. Qed.

Lemma list_sum_cons (x : nat) (l : list nat) : list_sum (x :: l) = x + list_sum l.
Proof. reflexivity. Qed.

Ltac sum_steps :=
  cbn [map]; rewrite ?list_sum_cons; change (list_sum []) with 0.

Lemma list_sum_no_hit (labels : list string) (key : string) :
  ~ In key labels ->
  list_sum (map (fun label => if String.eqb label key then 1 else 0) labels) = 0.
Proof.
  induction labels as [|label labels IH]; sum_steps; intros H; [reflexivity |].
  destruct (String.eqb_spec label key) as [-> | _].
  - exfalso. apply H. now left.
  - rewrite IH; [reflexivity |]. intros Hin. apply H. now right.
Qed.

(** Among distinct labels a key hits at most one. *)
Lemma list_sum_one_hit (labels : list string) (key : string) :
  List.NoDup labels ->
  list_sum (map (fun label => if String.eqb label key then 1 else 0) labels)
  = if existsb (String.eqb key) labels then 1 else 0.
Proof.
  induction 1 as [|label labels Hnotin _ IH]; sum_steps; cbn [existsb]; [reflexivity |].
  rewrite (String.eqb_sym key label).
  destruct (String.eqb_spec label key) as [-> | _].
  - now rewrite list_sum_no_hit.
  - exact IH.
Qed.

Lemma occurrences_over_labels (labels keys : list string) :
  List.NoDup labels ->
  list_sum (map (fun label => occurrences label keys) labels)
  = List.length (List.filter (fun key => existsb (String.eqb key) labels) keys).
Proof.
  intros Hdistinct. induction keys as [|key keys IH].
  - cbn [List.filter List.length]. induction labels; [reflexivity |].
    sum_steps. inversion Hdistinct; subst. now rewrite IHlabels.
  - rewrite (map_ext _ _ (fun label => occurrences_cons label key keys)).
    rewrite list_sum_map_add, IH, (list_sum_one_hit labels key Hdistinct).
    cbn [List.filter]. now destruct (existsb (String.eqb key) labels).
Qed.

Lemma length_filter_map {A B : Type} (f : A -> B) (p : B -> bool) (l : list A) :
  List.length (List.filter p (map f l))
  = List.length (List.filter (fun x => p (f x)) l).
Proof.
  induction l as [|x l IH]; [reflexivity |].
  cbn [map List.filter]. destruct (p (f x)); cbn [List.length]; now rewrite IH.
Qed.

Lemma displayed_severities_sum (ts : list threat) :
  occurrences "Critical" (map severity_key ts) + occurrences "High" (map severity_key ts)
  + occurrences "Medium" (map severity_key ts) + occurrences "Low" (map severity_key ts)
  = List.length (List.filter english_severity ts).
Proof.
  pose proof (occurrences_over_labels
                [ "Critical"; "High"; "Medium"; "Low" ]%string (map severity_key ts)) as H.
  cbn [map] in H. rewrite !list_sum_cons in H. change (list_sum []) with 0 in H.
  rewrite length_filter_map in H.
  rewrite (List.filter_ext _ english_severity) in H.
  - rewrite <- H; [lia |]. repeat constructor; cbn; intuition discriminate.
  - intros t. unfold severity_key, english_severity. now destruct (t_severity t).
Qed.

Lemma displayed_categories_sum (ts : list threat) :
  list_sum (map (fun label => occurrences label (map category_key ts)) STRIDE_CATEGORIES)
  = List.length (List.filter recognised ts).
Proof.
  rewrite occurrences_over_labels, length_filter_map.
  - f_equal. apply List.filter_ext. intros t.
    unfold category_key, recognised. now destruct (t_category t).
  - unfold STRIDE_CATEGORIES. repeat constructor; cbn; intuition discriminate.
Qed.

(** The summary tables undercount.  When the report renders, the four
    severities displayed add up to the number of threats that carry an English
    severity label, and the six categories displayed add up to the number of
    threats with a recognised category; every other threat is in the STRIDE
    tables above but in no row of the summary. *)
Theorem displayed_counts_add_up (now image_path output_path : string) (s : state) :
  connected_named (components_data s) ->
  exists (flow : list string) (critical high medium low : nat)
         (spoofing tampering repudiation disclosure denial elevation : nat),
    data_flow_sections (get (components (components_data s)) []) = Return flow
    /\ fst (generate_report now image_path output_path s)
       = Return (assemble now image_path (components_data s) (stride_data s) flow
                   [ "### Por Severidade";
                     "";
                     "| Severidade | Quantidade |";
                     "|----------|-------|";
                     severity_row "🔴" "Critical" critical;
                     severity_row "🟠" "High" high;
                     severity_row "🟡" "Medium" medium;
                     severity_row "🟢" "Low" low;
                     "" ]
                   [ "### Por Categoria STRIDE";
                     "";
                     "| Categoria | Quantidade |";
                     "|----------|-------|";
                     category_row "Spoofing" spoofing;
                     category_row "Tampering" tampering;
                     category_row "Repudiation" repudiation;
                     category_row "Information Disclosure" disclosure;
                     category_row "Denial of Service" denial;
                     category_row "Elevation of Privilege" elevation;
                     "" ])
    /\ critical + high + medium + low
       = List.length
           (List.filter english_severity
              (all_threats (get (stride_analysis (stride_data s)) [])))
    /\ spoofing + tampering + repudiation + disclosure + denial + elevation
       = List.length
           (List.filter recognised
              (all_threats (get (stride_analysis (stride_data s)) []))).
Proof.
  intros Hnamed.
  destruct (generate_report_text now image_path output_path s Hnamed) as (flow & Hflow & H).
  exists flow. do 10 eexists. split; [exact Hflow |]. split; [exact H |]. split.
  - apply displayed_severities_sum.
  - rewrite <- displayed_categories_sum. unfold STRIDE_CATEGORIES. sum_steps. lia.
Qed.

Lemma displayed_counts_add_up_witness :
  exists critical high medium low : nat,
    critical + high + medium + low
    = List.length
        (List.filter english_severity
           (all_threats (get (stride_analysis three_threat_report) []))).
Proof.
  destruct (displayed_counts_add_up "2024-01-01 00:00:00" "d.png" "r.md"
              (state_of no_components three_threat_report))
    as (flow & c & h & m & l & n1 & n2 & n3 & n4 & n5 & n6 & _ & _ & H & _);
    [constructor |].
  exists c, h, m, l. exact H.
Defined.

(** ** Main *)


Section MainFacts.

Variable json_loads_components : string -> option arch_doc.
Variable json_loads_report : string -> option threat_report.
Variable json_dumps : list component -> string.
Variable ChatOpenAI : string -> string -> list HumanMessage -> string.
Variable PROMPT : string.
Variables HEAD MID TAIL : string.




(** The two early exits of [main]. *)
Lemma main_early_exit (args : arguments) (env : gmap string string)
                              (fs : gmap string (list Byte.byte)) (now : string)
                              (s : state) :
  (fs !! args_image args = None ->
   main json_loads_components json_loads_report json_dumps ChatOpenAI
     PROMPT HEAD MID TAIL args env fs now s
   = (Return (Exited 1),
      set_stdout
        (fun o => o ++ [ ("[ERROR] Image file not found: " ++ args_image args)%string ]) s))
  /\ (is_Some (fs !! args_image args) ->
      env !! "OPENAI_API_KEY"%string = None \/ env !! "OPENAI_API_KEY"%string = Some ""%string ->
      main json_loads_components json_loads_report json_dumps ChatOpenAI
        PROMPT HEAD MID TAIL args env fs now s
      = (Return (Exited 1),
         set_stdout
           (fun o => o ++
              [ "[ERROR] OPENAI_API_KEY environment variable is not set.";
                "        Set it via: export OPENAI_API_KEY='your-key-here'";
                "        Or create a .env file with: OPENAI_API_KEY=your-key-here" ]%string)
           s)).
Proof.
  split.
  - intros Himage. unfold main. rewrite Himage. reflexivity.
  - intros [content Himage] Hkey. unfold main. rewrite Himage.
    assert (Hset : unset (env !! "OPENAI_API_KEY"%string) = true)
      by (destruct Hkey as [-> | ->]; reflexivity).
    cbv zeta. rewrite Hset.
    change (negb (bool_decide (is_Some (Some content)))) with false. cbv iota.
    do 3 (erewrite run_bind; [| reflexivity]).
    unfold mret, M_ret. now rewrite !set_stdout_append.
Qed.

(** [main] validates before it works.  Without the image it prints one line
    and exits with status 1, whatever the credential; with the image and
    without a credential (unset or empty) it prints three lines and exits with
    status 1.  In both cases the state is otherwise as it was: nothing more is
    printed and no file is written. *)
Theorem main_validates_inputs (args : arguments) (env : gmap string string)
                              (fs : gmap string (list Byte.byte)) (now : string)
                              (s : state) :
  (fs !! args_image args = None ->
   main json_loads_components json_loads_report json_dumps ChatOpenAI
     PROMPT HEAD MID TAIL args env fs now s
   = (Return (Exited 1),
      set_stdout
        (fun o => o ++ [ ("[ERROR] Image file not found: " ++ args_image args)%string ]) s))
  /\ (is_Some (fs !! args_image args) ->
      env !! "OPENAI_API_KEY"%string = None \/ env !! "OPENAI_API_KEY"%string = Some ""%string ->
      main json_loads_components json_loads_report json_dumps ChatOpenAI
        PROMPT HEAD MID TAIL args env fs now s
      = (Return (Exited 1),
         set_stdout
           (fun o => o ++
              [ "[ERROR] OPENAI_API_KEY environment variable is not set.";
                "        Set it via: export OPENAI_API_KEY='your-key-here'";
                "        Or create a .env file with: OPENAI_API_KEY=your-key-here" ]%string)
           s)).
Proof. exact (main_early_exit args env fs now s). Qed.




End MainFacts.



Lemma main_validates_inputs_witness :
  fst (main (demo_loads (components_data two_tier_state))
            (demo_loads (stride_data two_tier_state))
            (fun _ => ""%string) (fun _ _ _ => "{}"%string) "" "" "" ""
            demo_args demo_env ∅ "2024-01-01 00:00:00" empty_state)
  = Return (Exited 1)
  /\ fst (main (demo_loads (components_data two_tier_state))
               (demo_loads (stride_data two_tier_state))
               (fun _ => ""%string) (fun _ _ _ => "{}"%string) "" "" "" ""
               demo_args ∅ demo_fs "2024-01-01 00:00:00" empty_state)
     = Return (Exited 1).
Proof.
  split.
  - rewrite (proj1 (main_validates_inputs
                      (demo_loads (components_data two_tier_state))
                      (demo_loads (stride_data two_tier_state))
                      (fun _ => ""%string) (fun _ _ _ => "{}"%string) "" "" "" ""
                      demo_args demo_env ∅ "2024-01-01 00:00:00" empty_state)).
    + reflexivity.
    + reflexivity.
  - rewrite (proj2 (main_validates_inputs
                      (demo_loads (components_data two_tier_state))
                      (demo_loads (stride_data two_tier_state))
                      (fun _ => ""%string) (fun _ _ _ => "{}"%string) "" "" "" ""
                      demo_args ∅ demo_fs "2024-01-01 00:00:00" empty_state)).
    + reflexivity.
    + exists (list_byte_of_string "PNG"). reflexivity.
    + left. reflexivity.
Defined.

